(** * College counselling: rank-interval allocation (project.cpp)

    A shallow embedding of [src/project.cpp] and the properties of its
    parser, its allocation strategies, its instance counter and its driver.

    Conventions of the embedding:
    - C++ [int] values are integers of [Z] between [INT_MIN] and [INT_MAX];
    - [std::string] is [string]; [std::string::npos] is [None] of [option nat];
    - a thrown exception is the [Throw] alternative of [result];
    - the file system is a partial map from a path to the file's text, a
      path outside the map being one that [std::ifstream] cannot open;
    - the static member [totalInstances], [std::cin], [std::cout] and
      [std::cerr] are the fields of the [Process] state that the
      constructor and [main] thread along. *)

From Stdlib Require Import ZArith List Bool Ascii String Lia.
From Stdlib Require Import Numbers.DecimalString.
From Stdlib Require DecimalPos DecimalZ.
Import ListNotations.

Open Scope string_scope.
Open Scope Z_scope.

(** ** Exceptions of <stdexcept> used by the program *)

Inductive exception : Type :=
| runtime_error (what_arg : string)
| invalid_argument (what_arg : string)
| out_of_range (what_arg : string).

Definition what (e : exception) : string :=
  match e with
  | runtime_error w => w
  | invalid_argument w => w
  | out_of_range w => w
  end.

Inductive result (A : Type) : Type :=
| Ok (a : A)
| Throw (e : exception).

Arguments Ok {A} a.
Arguments Throw {A} e.

Definition bind {A B : Type} (r : result A) (k : A -> result B) : result B :=
  match r with
  | Ok a => k a
  | Throw e => Throw e
  end.

Notation "x <- c ;; k" := (bind c (fun x => k))
  (at level 61, c at next level, right associativity).

Definition throws {A : Type} (r : result A) : Prop :=
  exists e, r = Throw e.

(** ** The parts of the C++ standard library the program calls *)

Module std.

Definition INT_MAX : Z := 2147483647.
Definition INT_MIN : Z := -2147483648.

Definition newline : ascii := ascii_of_nat 10.
Definition endl : string := String newline "".

(** [isspace] in the "C" locale: space, and the control characters
    from horizontal tab (9) to carriage return (13). *)
Definition isspace (c : ascii) : bool :=
  let n := nat_of_ascii c in
  (Nat.eqb n 32 || (Nat.leb 9 n && Nat.leb n 13))%bool.

Definition isdigit (c : ascii) : bool :=
  let n := nat_of_ascii c in
  (Nat.leb 48 n && Nat.leb n 57)%bool.

Definition digit_value (c : ascii) : Z :=
  Z.of_nat (nat_of_ascii c - 48).

(** [s.find(c)]: index of the first [c] in [s], [None] for [npos]. *)
Fixpoint find (s : string) (c : ascii) : option nat :=
  match s with
  | EmptyString => None
  | String d s' =>
      if Ascii.eqb d c then Some 0%nat
      else match find s' c with
           | Some p => Some (S p)
           | None => None
           end
  end.

Fixpoint drop (n : nat) (s : string) : string :=
  match n, s with
  | O, _ => s
  | S n', String _ s' => drop n' s'
  | S _, EmptyString => EmptyString
  end.

Fixpoint take (n : nat) (s : string) : string :=
  match n, s with
  | O, _ => EmptyString
  | S n', String c s' => String c (take n' s')
  | S _, EmptyString => EmptyString
  end.

(** [s.substr(pos, count)] for [pos <= s.size()], which is the case at
    both call sites ([substr_pos_in_range] below); [count = None] is the
    defaulted [npos], the rest of the string. *)
Definition substr (s : string) (pos : nat) (count : option nat) : string :=
  match count with
  | Some n => take n (drop pos s)
  | None => drop pos s
  end.

Fixpoint skip_space (s : string) : string :=
  match s with
  | String c s' => if isspace c then skip_space s' else s
  | EmptyString => EmptyString
  end.

(** The run of decimal digits at the head of [s], accumulated in base
    ten onto [acc]; the text after the run is returned with the value. *)
Fixpoint read_digits (s : string) (acc : Z) : Z * string :=
  match s with
  | String c s' =>
      if isdigit c then read_digits s' (acc * 10 + digit_value c)
      else (acc, s)
  | EmptyString => (acc, EmptyString)
  end.

(** An optional sign at the head of [s]: whether it is a minus, and
    the text after it. *)
Definition read_sign (s : string) : bool * string :=
  match s with
  | String c s' =>
      if Ascii.eqb c "-" then (true, s')
      else if Ascii.eqb c "+" then (false, s')
      else (false, s)
  | EmptyString => (false, s)
  end.

(** The subject sequence of [strtol(s, &end, 10)] and of [num_get] for
    a decimal integer: an optional sign and a run of digits that is not
    empty. [None] when there is no such sequence (no conversion is
    performed); otherwise the mathematical value and the text after. *)
Definition read_integer (s : string) : option (Z * string) :=
  let (neg, s1) := read_sign s in
  match s1 with
  | String c _ =>
      if isdigit c then
        let (v, rest) := read_digits s1 0 in
        Some (if neg then - v else v, rest)
      else None
  | EmptyString => None
  end.

(** [std::stoi(s)]: [strtol] skips leading white space and converts the
    subject sequence, whatever follows it being left alone;
    [invalid_argument] when no conversion could be performed and
    [out_of_range] when the value does not fit an [int] (whether
    [strtol] itself reported [ERANGE] or not). The text of [what()] is
    the one libstdc++ gives; no statement below depends on it. *)
Definition stoi (s : string) : result Z :=
  match read_integer (skip_space s) with
  | None => Throw (invalid_argument "stoi")
  | Some (v, _) =>
      if (INT_MIN <=? v) && (v <=? INT_MAX) then Ok v
      else Throw (out_of_range "stoi")
  end.

(** One [getline(is, line)] on the text that is left of a stream: the
    characters before the first newline, and the text after that
    newline, or [None] for it when the end of the text came first. *)
Fixpoint read_line (s : string) : string * option string :=
  match s with
  | EmptyString => (EmptyString, None)
  | String c s' =>
      if Ascii.eqb c newline then (EmptyString, Some s')
      else let (l, r) := read_line s' in (String c l, r)
  end.

(** The lines that [while (getline(file, line))] goes through: a call
    fails, and ends the loop, when it extracts no character at all
    ([getlines_unfold] below relates this to [read_line]). *)
Fixpoint getlines (s : string) : list string :=
  match s with
  | EmptyString => []
  | String c s' =>
      if Ascii.eqb c newline then EmptyString :: getlines s'
      else match getlines s' with
           | [] => [String c EmptyString]
           | l :: ls => String c l :: ls
           end
  end.

(** [operator<<(int)] on a stream in its default (decimal) format. *)
Definition to_string (n : Z) : string :=
  NilZero.string_of_int (Z.to_int n).

End std.

Arguments std.isspace : simpl never.
Arguments std.isdigit : simpl never.
Arguments std.digit_value : simpl never.

(** A file system: the text of each file that can be opened. *)
Definition FileSystem : Type := string -> option string.

(** ** namespace CollegeCounseling *)

Module CollegeCounseling.

(** The abstract base class: one virtual [allocateCollege]. *)
Class AllocationStrategy (T : Type) : Type :=
  allocateCollege : T -> Z -> string.

Record CollegeData : Type := mkCollegeData {
  rankStart : Z;
  rankEnd : Z;
  college : string
}.

Record RankIntervalStrategy : Type := mkRankIntervalStrategy {
  collegesData : list CollegeData
}.

(** The condition of the [if] in [allocateCollege]. *)
Definition in_interval (userRank : Z) (data : CollegeData) : bool :=
  (userRank >=? rankStart data) && (userRank <=? rankEnd data).

Definition no_college : string := "No college allocated for your rank.".

(** The range-for loop of [RankIntervalStrategy::allocateCollege]. *)
Fixpoint allocate_loop (datas : list CollegeData) (userRank : Z) : string :=
  match datas with
  | [] => no_college
  | data :: rest =>
      if in_interval userRank data then college data
      else allocate_loop rest userRank
  end.

#[global] Instance RankIntervalStrategy_allocateCollege :
  AllocationStrategy RankIntervalStrategy :=
  fun this userRank => allocate_loop (collegesData this) userRank.

(** The body of the [while] loop of [loadCollegesData]: one line of
    the data file to one record. *)
Definition loadCollegesData_line (line : string) : result CollegeData :=
  match std.find line ":" with
  | None =>
      Throw (runtime_error "Error: Invalid data format in the data file.")
  | Some colonPos =>
      let rankRange := std.substr line 0 (Some colonPos) in
      let college := std.substr line (colonPos + 1) None in
      match std.find rankRange "-" with
      | None =>
          Throw (runtime_error "Error: Invalid rank range in the data file.")
      | Some hyphenPos =>
          rankStart <- std.stoi (std.substr rankRange 0 (Some hyphenPos)) ;;
          rankEnd <- std.stoi (std.substr rankRange (hyphenPos + 1) None) ;;
          Ok (mkCollegeData rankStart rankEnd college)
      end
  end.

(** The [while] loop, [collegesData] being the vector built so far. *)
Fixpoint loadCollegesData_loop (lines : list string)
    (collegesData : list CollegeData) : result (list CollegeData) :=
  match lines with
  | [] => Ok collegesData
  | line :: lines' =>
      data <- loadCollegesData_line line ;;
      loadCollegesData_loop lines' (collegesData ++ [data])
  end.

(** [loadCollegesData(dataFile)], from the empty vector of a strategy
    under construction. *)
Definition loadCollegesData (fs : FileSystem) (dataFile : string)
    : result (list CollegeData) :=
  match fs dataFile with
  | None => Throw (runtime_error "Error: Cannot open data file.")
  | Some text => loadCollegesData_loop (std.getlines text) []
  end.

Inductive AnotherStrategy : Type := mkAnotherStrategy.
Inductive YetAnotherStrategy : Type := mkYetAnotherStrategy.

#[global] Instance AnotherStrategy_allocateCollege :
  AllocationStrategy AnotherStrategy :=
  fun _ _ => "not eligible for round two".

#[global] Instance YetAnotherStrategy_allocateCollege :
  AllocationStrategy YetAnotherStrategy :=
  fun _ _ => "not eligible for round three".

Record CollegeApplication : Type := mkCollegeApplication {
  getApplicantName : string;
  getApplicantRank : Z
}.

(** [CollegeAdmissionSystem::allocateCollege]. *)
Definition CollegeAdmissionSystem_allocateCollege {T : Type}
    `{AllocationStrategy T} (strategy : T)
    (application : CollegeApplication) : string :=
  allocateCollege strategy (getApplicantRank application).

End CollegeCounseling.

(** ** The process: standard streams and the static counter *)

(** [std::cin]: the text not yet extracted and two of the state bits. *)
Record istream : Type := mkIstream {
  rdbuf : string;
  eofbit : bool;
  failbit : bool
}.

Definition good (ins : istream) : bool :=
  negb (eofbit ins) && negb (failbit ins).

Definition setstate_fail (ins : istream) : istream :=
  mkIstream (rdbuf ins) (eofbit ins) true.

Definition is_empty (s : string) : bool :=
  match s with
  | EmptyString => true
  | String _ _ => false
  end.

(** [is >> std::ws]: white space is discarded; [eofbit] is set when the
    text runs out. *)
Definition ws (ins : istream) : istream :=
  if good ins then
    let b := std.skip_space (rdbuf ins) in
    mkIstream b (is_empty b) false
  else setstate_fail ins.

(** [std::getline(ins, str)]: the new state of the stream and of [str].
    [failbit] is set when no character is extracted, [eofbit] when the end
    of the text is reached before a newline. *)
Definition getline (ins : istream) (str : string) : istream * string :=
  if good ins then
    match std.read_line (rdbuf ins) with
    | (l, Some rest) => (mkIstream rest false false, l)
    | (l, None) => (mkIstream EmptyString true (is_empty l), l)
    end
  else (setstate_fail ins, str).

(** [is >> n] for an [int] variable that holds [n]: the new state of
    the stream and of the variable. Leading white space is skipped, then
    a sign and digits are read. When the stream is not good, or the text
    runs out before any character of the number, [failbit] is set and
    nothing is stored. When there is no digit, the sign alone (if there
    is one) has been taken from the stream, [failbit] is set and [0] is
    stored. When the value does not fit an [int], the digits have been
    taken, [failbit] is set and the nearest bound of [int] is stored.
    [eofbit] is set whenever the end of the text was reached. *)
Definition extract_int (ins : istream) (n : Z) : istream * Z :=
  if good ins then
    let b := std.skip_space (rdbuf ins) in
    if is_empty b then (mkIstream b true true, n)
    else
      match std.read_integer b with
      | None =>
          let after_sign := snd (std.read_sign b) in
          (mkIstream after_sign (is_empty after_sign) true, 0)
      | Some (v, rest) =>
          if v <? std.INT_MIN
          then (mkIstream rest (is_empty rest) true, std.INT_MIN)
          else if std.INT_MAX <? v
          then (mkIstream rest (is_empty rest) true, std.INT_MAX)
          else (mkIstream rest (is_empty rest) false, v)
      end
  else (setstate_fail ins, n).

Record Process : Type := mkProcess {
  cin : istream;
  cout : string;
  cerr : string;
  totalInstances : Z
}.

(** The process at its start: [totalInstances] is initialised to [0]. *)
Definition start (stdin : string) : Process :=
  mkProcess (mkIstream stdin false false) "" "" 0.

(** A computation of the program: it may throw, and it changes the
    process state either way. *)
Definition M (A : Type) : Type := Process -> result A * Process.

Definition ret {A : Type} (a : A) : M A := fun p => (Ok a, p).

Definition raise {A : Type} (e : exception) : M A := fun p => (Throw e, p).

Definition bindM {A B : Type} (m : M A) (k : A -> M B) : M B :=
  fun p =>
    match m p with
    | (Ok a, p') => k a p'
    | (Throw e, p') => (Throw e, p')
    end.

Notation "x <~ c ;; k" := (bindM c (fun x => k))
  (at level 61, c at next level, right associativity).
Notation "c ;;; k" := (bindM c (fun _ => k))
  (at level 61, right associativity).

Definition put_cout (s : string) : M unit :=
  fun p => (Ok tt, mkProcess (cin p) (cout p ++ s) (cerr p) (totalInstances p)).

Definition put_cerr (s : string) : M unit :=
  fun p => (Ok tt, mkProcess (cin p) (cout p) (cerr p ++ s) (totalInstances p)).

Definition with_cin {A : Type} (f : istream -> istream * A) : M A :=
  fun p =>
    let (ins, a) := f (cin p) in
    (Ok a, mkProcess ins (cout p) (cerr p) (totalInstances p)).

(** [std::ifstream f(path); if (!f.is_open()) throw std::runtime_error(msg);] *)
Definition open_or_throw (fs : FileSystem) (path msg : string) : M string :=
  match fs path with
  | Some text => ret text
  | None => raise (runtime_error msg)
  end.

(** The constructor [RankIntervalStrategy(dataFile)]: [loadCollegesData],
    then [totalInstances++]. *)
Definition RankIntervalStrategy_new (fs : FileSystem) (dataFile : string)
    : M CollegeCounseling.RankIntervalStrategy :=
  fun p =>
    match CollegeCounseling.loadCollegesData fs dataFile with
    | Throw e => (Throw e, p)
    | Ok datas =>
        (Ok (CollegeCounseling.mkRankIntervalStrategy datas),
         mkProcess (cin p) (cout p) (cerr p) (totalInstances p + 1))
    end.

(** The delegating constructor [RankIntervalStrategy()]. *)
Definition RankIntervalStrategy_default (fs : FileSystem)
    : M CollegeCounseling.RankIntervalStrategy :=
  RankIntervalStrategy_new fs "default_data.txt".

(** [RankIntervalStrategy::getTotalInstances()]. *)
Definition getTotalInstances : M Z :=
  fun p => (Ok (totalInstances p), p).

Definition displayAllocationResult (result : string) : M unit :=
  put_cout ("Result: " ++ result ++ std.endl).

(** The lambda [getRankAllocation]. *)
Definition getRankAllocation {T : Type}
    `{CollegeCounseling.AllocationStrategy T} (strategy : T)
    (application : CollegeCounseling.CollegeApplication) : string :=
  CollegeCounseling.CollegeAdmissionSystem_allocateCollege strategy application.

Definition prompt_name : string := "Enter your name: ".
Definition prompt_rank : string := "Enter your rank: ".
Definition invalid_rank : string :=
  "Error: Invalid input for rank. Please enter a valid integer.".
Definition total_line : string := "Total instances of RankIntervalStrategy: ".

(** The [try] block of [main]. [int userRank;] has no initialiser:
    [indeterminate] is whatever the variable holds before the
    extraction. *)
Definition main_try_from (fs : FileSystem) (indeterminate : Z) : M unit :=
  pathText <~ open_or_throw fs "data.txt" "Error: Cannot open data.txt" ;;
  let projectFilePath := fst (std.read_line pathText) in
  _projectFile <~ open_or_throw fs projectFilePath "Error: Cannot open project.txt" ;;
  put_cout prompt_name ;;;
  userName <~ with_cin (fun ins => getline (ws ins) "") ;;
  put_cout prompt_rank ;;;
  userRank <~ with_cin (fun ins => extract_int ins indeterminate) ;;
  failed <~ (fun p => (Ok (failbit (cin p)), p)) ;;
  (if failed : bool then raise (runtime_error invalid_rank) else ret tt) ;;;
  rankStrategy <~ RankIntervalStrategy_new fs projectFilePath ;;
  let anotherStrategy := CollegeCounseling.mkAnotherStrategy in
  let yetAnotherStrategy := CollegeCounseling.mkYetAnotherStrategy in
  let application := CollegeCounseling.mkCollegeApplication userName userRank in
  let resultRank := getRankAllocation rankStrategy application in
  displayAllocationResult resultRank ;;;
  let resultAnother := getRankAllocation anotherStrategy application in
  displayAllocationResult resultAnother ;;;
  let resultYetAnother := getRankAllocation yetAnotherStrategy application in
  displayAllocationResult resultYetAnother ;;;
  n <~ getTotalInstances ;;
  put_cout (total_line ++ std.to_string n ++ std.endl).

(** The [try] block, the variable holding [0] at first: what it holds
    has no effect on a run ([main_try_from_any] below), since it is read
    only after an extraction that has stored a value. *)
Definition main_try (fs : FileSystem) : M unit := main_try_from fs 0.

(** [main]: the [try] block, the handler that writes [e.what()] to
    [std::cerr], and [return 0]. The exit status comes with the final
    state of the process. *)
Definition main (fs : FileSystem) (stdin : string) : Z * Process :=
  match main_try fs (start stdin) with
  | (Ok _, p) => (0, p)
  | (Throw e, p) => (0, snd (put_cerr (what e ++ std.endl) p))
  end.

(** ** Vocabulary of the statements *)

(** Number of occurrences of a character in a string. *)
Fixpoint count_char (c : ascii) (s : string) : nat :=
  match s with
  | EmptyString => 0%nat
  | String d s' => ((if Ascii.eqb d c then 1 else 0) + count_char c s')%nat
  end.

Fixpoint all_chars (f : ascii -> bool) (s : string) : bool :=
  match s with
  | EmptyString => true
  | String c s' => f c && all_chars f s'
  end.

Definition starts_with (f : ascii -> bool) (s : string) : bool :=
  match s with
  | EmptyString => false
  | String c _ => f c
  end.

(** The number that a string of decimal digits writes. *)
Definition decimal_step (acc : Z) (c : ascii) : Z :=
  acc * 10 + std.digit_value c.

Definition decimal (ds : string) : Z :=
  fold_left decimal_step (list_ascii_of_string ds) 0.

(** The three ways a number may be signed. *)
Definition is_sign (sg : string) : Prop :=
  sg = "" \/ sg = "+" \/ sg = "-".

Definition signed (sg : string) (n : Z) : Z :=
  if String.eqb sg "-" then - n else n.

(** [rank] lies in the interval of the record [d]. *)
Definition contains (d : CollegeCounseling.CollegeData) (rank : Z) : Prop :=
  CollegeCounseling.rankStart d <= rank <= CollegeCounseling.rankEnd d.

(** A data set and an indirection file for the examples. *)
Definition example_fs : FileSystem :=
  fun path =>
    if String.eqb path "data.txt" then Some "project.txt"
    else if String.eqb path "project.txt"
         then Some ("100-200:Tech U" ++ std.endl ++ "201-300:State College")
    else None.

(** The table that [example_fs] holds at "project.txt". *)
Definition example_table : list CollegeCounseling.CollegeData :=
  [CollegeCounseling.mkCollegeData 100 200 "Tech U";
   CollegeCounseling.mkCollegeData 201 300 "State College"].

(** The standard output of a run that goes through the whole [try]
    block, from what was there before. *)
Definition full_output (before : string)
    (table : list CollegeCounseling.CollegeData) (userRank total : Z)
    : string :=
  (((((before ++ prompt_name) ++ prompt_rank)
       ++ ("Result: " ++ CollegeCounseling.allocate_loop table userRank
                      ++ std.endl))
      ++ ("Result: " ++ "not eligible for round two" ++ std.endl))
     ++ ("Result: " ++ "not eligible for round three" ++ std.endl))
    ++ (total_line ++ std.to_string total ++ std.endl).

(** The [try] block, case by case. *)
Inductive main_try_outcome (fs : FileSystem) (p : Process)
  : result unit * Process -> Prop :=
| no_indirection_file :
    fs "data.txt" = None ->
    main_try_outcome fs p
      (Throw (runtime_error "Error: Cannot open data.txt"), p)
| no_data_file pathText :
    fs "data.txt" = Some pathText ->
    fs (fst (std.read_line pathText)) = None ->
    main_try_outcome fs p
      (Throw (runtime_error "Error: Cannot open project.txt"), p)
| bad_rank pathText text ins userRank :
    fs "data.txt" = Some pathText ->
    fs (fst (std.read_line pathText)) = Some text ->
    extract_int (fst (getline (ws (cin p)) "")) 0 = (ins, userRank) ->
    failbit ins = true ->
    main_try_outcome fs p
      (Throw (runtime_error invalid_rank),
       mkProcess ins ((cout p ++ prompt_name) ++ prompt_rank) (cerr p)
                 (totalInstances p))
| bad_data pathText text ins userRank e :
    fs "data.txt" = Some pathText ->
    fs (fst (std.read_line pathText)) = Some text ->
    extract_int (fst (getline (ws (cin p)) "")) 0 = (ins, userRank) ->
    failbit ins = false ->
    CollegeCounseling.loadCollegesData fs (fst (std.read_line pathText))
    = Throw e ->
    main_try_outcome fs p
      (Throw e,
       mkProcess ins ((cout p ++ prompt_name) ++ prompt_rank) (cerr p)
                 (totalInstances p))
| allocated pathText text ins userRank table :
    fs "data.txt" = Some pathText ->
    fs (fst (std.read_line pathText)) = Some text ->
    extract_int (fst (getline (ws (cin p)) "")) 0 = (ins, userRank) ->
    failbit ins = false ->
    CollegeCounseling.loadCollegesData fs (fst (std.read_line pathText))
    = Ok table ->
    main_try_outcome fs p
      (Ok tt,
       mkProcess ins
                 (full_output (cout p) table userRank (totalInstances p + 1))
                 (cerr p) (totalInstances p + 1)).

(** The text [s] begins, white space apart, with an integer: a sign or
    none and digits, at least one, that write [v], followed by [rest],
    which does not go on with a digit. *)
Definition integer_prefix (s : string) (v : Z) (rest : string) : Prop :=
  exists w sg ds,
    s = w ++ sg ++ ds ++ rest
    /\ all_chars std.isspace w = true
    /\ is_sign sg
    /\ all_chars std.isdigit ds = true /\ ds <> ""
    /\ starts_with std.isdigit rest = false
    /\ v = signed sg (decimal ds).

(** The standard input gives a name and the rank [v]: after white space
    or none, a line that is not empty and does not begin with white
    space, its newline, and a text that begins with the integer [v],
    which fits an [int]. *)
Definition gives_rank (stdin : string) (v : Z) : Prop :=
  exists w name rankText rest,
    stdin = w ++ name ++ std.endl ++ rankText
    /\ all_chars std.isspace w = true
    /\ name <> ""
    /\ starts_with std.isspace name = false
    /\ count_char std.newline name = 0%nat
    /\ integer_prefix rankText v rest
    /\ std.INT_MIN <= v <= std.INT_MAX.

(** A character that can begin the text of an integer. *)
Definition begins_integer (c : ascii) : bool :=
  std.isdigit c || Ascii.eqb c "-" || Ascii.eqb c "+".

(** A value that an [int] can hold. *)
Definition in_int_range (z : Z) : Prop :=
  std.INT_MIN <= z <= std.INT_MAX.

(** The text of a file with the given lines, each ended by a newline. *)
Definition join_lines (ls : list string) : string :=
  fold_right (fun l text => l ++ std.endl ++ text) "" ls.

(** The line that writes a record the way the data file has it. *)
Definition line_of (d : CollegeCounseling.CollegeData) : string :=
  std.to_string (CollegeCounseling.rankStart d) ++ "-"
  ++ std.to_string (CollegeCounseling.rankEnd d) ++ ":"
  ++ CollegeCounseling.college d.

(** The records whose interval is not empty. *)
Definition proper_intervals (table : list CollegeCounseling.CollegeData)
    : list CollegeCounseling.CollegeData :=
  filter (fun d => CollegeCounseling.rankStart d
                   <=? CollegeCounseling.rankEnd d) table.


(** ** Facts about strings *)

Section StringFacts.

Variable c : ascii.

Lemma count_char_app (a b : string) :
  count_char c (a ++ b) = (count_char c a + count_char c b)%nat.
Proof.
  induction a as [|d a IH]; simpl; [reflexivity|].
  rewrite IH. lia.
Qed.

Lemma find_None_count (s : string) :
  std.find s c = None <-> count_char c s = 0%nat.
Proof.
  induction s as [|d s IH]; simpl.
  - tauto.
  - destruct (Ascii.eqb d c).
    + split; [discriminate | intro H; lia].
    + destruct (std.find s c); simpl.
      * split; [discriminate|]. intro H. apply IH in H. discriminate.
      * split; [intros _; now apply IH | reflexivity].
Qed.

Lemma find_Some_split (s : string) (p : nat) :
  std.find s c = Some p ->
  s = std.take p s ++ String c (std.drop (S p) s)
  /\ count_char c (std.take p s) = 0%nat
  /\ (p < String.length s)%nat.
Proof.
  revert p. induction s as [|d s IH]; simpl; intros p H.
  - discriminate.
  - destruct (Ascii.eqb d c) eqn:E.
    + injection H as <-. apply Ascii.eqb_eq in E. subst d.
      simpl. repeat split; lia.
    + destruct (std.find s c) as [q|]; [|discriminate].
      injection H as <-. destruct (IH q eq_refl) as (H1 & H2 & H3).
      cbn [std.take std.drop count_char String.length append].
      rewrite E. repeat split; [| exact H2 | lia].
      f_equal. exact H1.
Qed.

Lemma find_app_first (a b : string) :
  count_char c a = 0%nat ->
  std.find (a ++ String c b) c = Some (String.length a).
Proof.
  induction a as [|d a IH]; simpl; intro H.
  - now rewrite Ascii.eqb_refl.
  - destruct (Ascii.eqb d c); [lia|].
    now rewrite IH.
Qed.

End StringFacts.

Lemma take_app_length (a b : string) : std.take (String.length a) (a ++ b) = a.
Proof. induction a as [|d a IH]; simpl; [now destruct b | now rewrite IH]. Qed.

Lemma drop_app_length (a b : string) : std.drop (String.length a) (a ++ b) = b.
Proof. induction a as [|d a IH]; simpl; [reflexivity | exact IH]. Qed.

Lemma drop_succ_app (a b : string) (c : ascii) :
  std.drop (String.length a + 1) (a ++ String c b) = b.
Proof. induction a as [|d a IH]; simpl; [reflexivity | exact IH]. Qed.

Lemma string_app_assoc (a b c : string) : (a ++ b) ++ c = a ++ (b ++ c).
Proof. induction a as [|d a IH]; simpl; [reflexivity | now rewrite IH]. Qed.

(** The positions handed to [substr] in [loadCollegesData] are within
    the string, so that neither call throws. *)
Lemma substr_pos_in_range (s : string) (c : ascii) (p : nat) :
  std.find s c = Some p -> (p + 1 <= String.length s)%nat.
Proof. intro H. apply find_Some_split in H. lia. Qed.

(** [getlines] is the iteration of [getline] until a call extracts
    nothing. *)
Lemma getlines_unfold (s : string) :
  std.getlines s =
  match std.read_line s with
  | (l, Some rest) => l :: std.getlines rest
  | (l, None) => if is_empty l then [] else [l]
  end.
Proof.
  induction s as [|d s IH]; simpl; [reflexivity|].
  destruct (Ascii.eqb d std.newline); [reflexivity|].
  rewrite IH. destruct (std.read_line s) as [l [rest|]]; [reflexivity|].
  now destruct l.
Qed.

Lemma getlines_nil (s : string) : std.getlines s = [] <-> s = "".
Proof.
  split; [|now intros ->].
  destruct s as [|d s]; [reflexivity|]. simpl.
  destruct (Ascii.eqb d std.newline); [discriminate|].
  destruct (std.getlines s); discriminate.
Qed.

(** ** Facts about the conversion of integers *)

Section Conversion.

Lemma digit_not_space (c : ascii) :
  std.isdigit c = true -> std.isspace c = false.
Proof.
  unfold std.isdigit, std.isspace. intro H.
  apply andb_prop in H. destruct H as [H1 H2].
  apply Nat.leb_le in H1. apply Nat.leb_le in H2.
  apply orb_false_iff. split.
  - apply Nat.eqb_neq. lia.
  - apply andb_false_iff. right. apply Nat.leb_gt. lia.
Qed.

Lemma digit_not_sign (c : ascii) :
  std.isdigit c = true -> Ascii.eqb c "-" = false /\ Ascii.eqb c "+" = false.
Proof.
  intro H. split; apply Ascii.eqb_neq; intros ->; discriminate.
Qed.

Lemma skip_space_app (w s : string) :
  all_chars std.isspace w = true ->
  std.skip_space (w ++ s) = std.skip_space s.
Proof.
  induction w as [|c w IH]; simpl; intro H; [reflexivity|].
  apply andb_prop in H. destruct H as [Hc Hw]. rewrite Hc. now apply IH.
Qed.

Lemma skip_space_id (s : string) :
  starts_with std.isspace s = false -> std.skip_space s = s.
Proof. destruct s as [|c s]; simpl; [reflexivity | now intros ->]. Qed.

Lemma skip_space_split (s : string) :
  exists w,
    s = w ++ std.skip_space s
    /\ all_chars std.isspace w = true
    /\ starts_with std.isspace (std.skip_space s) = false.
Proof.
  induction s as [|c s (w & E & A & N)]; simpl.
  - now exists "".
  - destruct (std.isspace c) eqn:Hc.
    + exists (String c w). simpl. rewrite Hc, A. now rewrite <- E.
    + exists "". simpl. now rewrite Hc.
Qed.

Lemma read_digits_app (ds rest : string) (acc : Z) :
  all_chars std.isdigit ds = true ->
  starts_with std.isdigit rest = false ->
  std.read_digits (ds ++ rest) acc
  = (fold_left decimal_step (list_ascii_of_string ds) acc, rest).
Proof.
  revert acc. induction ds as [|c ds IH]; simpl; intros acc Hd Hr.
  - destruct rest as [|c rest]; [reflexivity|]. simpl in Hr |- *. now rewrite Hr.
  - apply andb_prop in Hd. destruct Hd as [Hc Hd]. rewrite Hc. now apply IH.
Qed.

Lemma read_digits_split (s : string) (acc : Z) :
  exists ds,
    s = ds ++ snd (std.read_digits s acc)
    /\ all_chars std.isdigit ds = true
    /\ starts_with std.isdigit (snd (std.read_digits s acc)) = false
    /\ fst (std.read_digits s acc)
       = fold_left decimal_step (list_ascii_of_string ds) acc.
Proof.
  revert acc. induction s as [|c s IH]; simpl; intro acc.
  - now exists "".
  - destruct (std.isdigit c) eqn:Hc.
    + destruct (IH (acc * 10 + std.digit_value c)) as (ds & E & A & N & V).
      exists (String c ds). simpl. rewrite Hc, A. now rewrite <- E.
    + exists "". simpl. now rewrite Hc.
Qed.

(** What [read_integer] accepts: a sign or none, digits, and a rest
    that does not go on with a digit. *)
Lemma read_integer_spec (s rest : string) (v : Z) :
  std.read_integer s = Some (v, rest) <->
  exists sg ds,
    s = sg ++ ds ++ rest
    /\ is_sign sg
    /\ all_chars std.isdigit ds = true /\ ds <> ""
    /\ starts_with std.isdigit rest = false
    /\ v = signed sg (decimal ds).
Proof.
  split.
  - unfold std.read_integer.
    destruct (std.read_sign s) as [neg s1] eqn:Sg.
    destruct s1 as [|c s1]; [discriminate|].
    destruct (std.isdigit c) eqn:Hc; [|discriminate].
    destruct (read_digits_split (String c s1) 0) as (ds & E & A & N & V).
    destruct (std.read_digits (String c s1) 0) as [n r] eqn:R.
    cbn [fst snd] in *. intro H. injection H as <- <-.
    assert (Hds : ds <> "").
    { intros ->. simpl in E. subst r. simpl in N. congruence. }
    assert (Hsg : exists sg, s = sg ++ String c s1 /\ is_sign sg
                             /\ neg = String.eqb sg "-").
    { unfold std.read_sign in Sg. destruct s as [|c0 s0].
      - injection Sg as <- E0. discriminate.
      - destruct (Ascii.eqb c0 "-") eqn:E1.
        + apply Ascii.eqb_eq in E1. subst c0. injection Sg as <- <-.
          exists "-". unfold is_sign. repeat split; auto.
        + destruct (Ascii.eqb c0 "+") eqn:E2.
          * apply Ascii.eqb_eq in E2. subst c0. injection Sg as <- <-.
            exists "+". unfold is_sign. repeat split; auto.
          * injection Sg as <- <- <-. exists "".
            unfold is_sign. repeat split; auto. }
    destruct Hsg as (sg & -> & Hsign & ->).
    exists sg, ds. rewrite <- E. subst n.
    repeat split; assumption || reflexivity.
  - intros (sg & ds & -> & Hsign & A & Hds & N & ->).
    destruct ds as [|c ds]; [contradiction|].
    pose proof A as A'. simpl in A'. apply andb_prop in A'.
    destruct A' as [Hc _]. destruct (digit_not_sign c Hc) as [Hm Hp].
    unfold std.read_integer.
    assert (Sg : std.read_sign (sg ++ String c ds ++ rest)
                 = (String.eqb sg "-", String c ds ++ rest)).
    { destruct Hsign as [-> | [-> | ->]]; simpl; [|reflexivity|reflexivity].
      now rewrite Hm, Hp. }
    rewrite Sg. cbn [append]. rewrite Hc.
    change (String c (ds ++ rest)) with (String c ds ++ rest).
    rewrite (read_digits_app (String c ds) rest 0 A N).
    reflexivity.
Qed.

Lemma read_integer_rest (s rest : string) (v : Z) :
  std.read_integer s = Some (v, rest) ->
  starts_with std.isspace s = false.
Proof.
  intro H. apply read_integer_spec in H.
  destruct H as (sg & ds & -> & Hsign & A & Hds & _).
  destruct ds as [|c ds]; [contradiction|].
  simpl in A. apply andb_prop in A. destruct A as [Hc _].
  destruct Hsign as [-> | [-> | ->]]; simpl; try reflexivity.
  now apply digit_not_space.
Qed.

(** What [stoi] accepts, and the value it gives. *)
Lemma stoi_spec (s : string) (v : Z) :
  std.stoi s = Ok v <->
  exists w sg ds rest,
    s = w ++ sg ++ ds ++ rest
    /\ all_chars std.isspace w = true
    /\ is_sign sg
    /\ all_chars std.isdigit ds = true /\ ds <> ""
    /\ starts_with std.isdigit rest = false
    /\ v = signed sg (decimal ds)
    /\ std.INT_MIN <= v <= std.INT_MAX.
Proof.
  unfold std.stoi. split.
  - destruct (skip_space_split s) as (w & E & A & _).
    destruct (std.read_integer (std.skip_space s)) as [[v' rest]|] eqn:R;
      [|discriminate].
    destruct ((std.INT_MIN <=? v') && (v' <=? std.INT_MAX)) eqn:B;
      [|discriminate].
    intro H. injection H as <-.
    apply read_integer_spec in R.
    destruct R as (sg & ds & E' & Hsign & Ad & Hds & N & V).
    apply andb_prop in B. destruct B as [B1 B2].
    apply Z.leb_le in B1. apply Z.leb_le in B2.
    exists w, sg, ds, rest. rewrite <- E'.
    repeat split; assumption.
  - intros (w & sg & ds & rest & -> & A & Hsign & Ad & Hds & N & V & B1 & B2).
    assert (R : std.read_integer (sg ++ ds ++ rest) = Some (v, rest)).
    { apply read_integer_spec. exists sg, ds. repeat split; assumption. }
    rewrite skip_space_app by exact A.
    rewrite skip_space_id by (eapply read_integer_rest; exact R).
    rewrite R. apply Z.leb_le in B1. apply Z.leb_le in B2.
    now rewrite B1, B2.
Qed.

End Conversion.

(** ** Facts about the parser *)

Module ParserFacts.
Import CollegeCounseling.

Lemma line_no_colon (line : string) :
  count_char ":" line = 0%nat ->
  loadCollegesData_line line =
  Throw (runtime_error "Error: Invalid data format in the data file.").
Proof.
  intro H. apply find_None_count in H.
  unfold loadCollegesData_line. now rewrite H.
Qed.

Lemma find_colon (range label : string) :
  count_char ":" range = 0%nat ->
  std.find (range ++ ":" ++ label) ":" = Some (String.length range)
  /\ std.substr (range ++ ":" ++ label) 0 (Some (String.length range)) = range
  /\ std.substr (range ++ ":" ++ label) (String.length range + 1) None = label.
Proof.
  intro H. cbn [append std.substr std.drop]. repeat split.
  - now apply find_app_first.
  - apply take_app_length.
  - apply drop_succ_app.
Qed.

Lemma line_no_hyphen (range label : string) :
  count_char ":" range = 0%nat ->
  count_char "-" range = 0%nat ->
  loadCollegesData_line (range ++ ":" ++ label) =
  Throw (runtime_error "Error: Invalid rank range in the data file.").
Proof.
  intros Hc Hh. destruct (find_colon range label Hc) as (F & R & _).
  unfold loadCollegesData_line. rewrite F, R.
  apply find_None_count in Hh. now rewrite Hh.
Qed.

(** A line with both separators: the two halves go to [stoi] as they are. *)
Lemma line_halves (a b label : string) :
  count_char "-" a = 0%nat ->
  count_char ":" a = 0%nat ->
  count_char ":" b = 0%nat ->
  loadCollegesData_line (a ++ "-" ++ b ++ ":" ++ label) =
  (s <- std.stoi a ;; e <- std.stoi b ;; Ok (mkCollegeData s e label)).
Proof.
  intros Ha Hca Hcb.
  assert (Hr : count_char ":" (a ++ "-" ++ b) = 0%nat).
  { rewrite count_char_app. simpl. lia. }
  destruct (find_colon (a ++ "-" ++ b) label Hr) as (F & R & L).
  replace (a ++ "-" ++ b ++ ":" ++ label) with ((a ++ "-" ++ b) ++ ":" ++ label)
    by (rewrite string_app_assoc; reflexivity).
  unfold loadCollegesData_line. rewrite F, R, L.
  cbn [append]. rewrite (find_app_first "-" a b Ha).
  cbn [std.substr std.drop]. rewrite take_app_length, drop_succ_app.
  reflexivity.
Qed.

Lemma line_Ok_inv (line : string) (d : CollegeData) :
  loadCollegesData_line line = Ok d ->
  exists a b label,
    line = a ++ "-" ++ b ++ ":" ++ label
    /\ count_char "-" a = 0%nat
    /\ count_char ":" a = 0%nat
    /\ count_char ":" b = 0%nat
    /\ std.stoi a = Ok (rankStart d)
    /\ std.stoi b = Ok (rankEnd d)
    /\ college d = label.
Proof.
  unfold loadCollegesData_line.
  destruct (std.find line ":") as [cp|] eqn:Fc; [|discriminate].
  cbn [std.substr std.drop].
  destruct (std.find (std.take cp line) "-") as [hp|] eqn:Fh; [|discriminate].
  apply find_Some_split in Fc. destruct Fc as (Sc & Cc & _).
  apply find_Some_split in Fh. destruct Fh as (Sh & Ch & _).
  set (range := std.take cp line) in *.
  set (a := std.take hp range) in *.
  replace (hp + 1)%nat with (S hp) by lia.
  replace (cp + 1)%nat with (S cp) by lia.
  set (b := std.drop (S hp) range) in *.
  set (label := std.drop (S cp) line) in *.
  destruct (std.stoi a) as [s|] eqn:Sa; [|discriminate].
  destruct (std.stoi b) as [e|] eqn:Sb; [|discriminate].
  cbn [bind]. intro H. injection H as <-.
  exists a, b, label. cbn [rankStart rankEnd college].
  rewrite Sh in Cc. rewrite count_char_app in Cc. simpl in Cc.
  repeat split; try lia; try reflexivity; try assumption.
  rewrite Sc at 1. rewrite Sh. rewrite string_app_assoc. reflexivity.
Qed.

Lemma loop_Ok (lines : list string) (acc table : list CollegeData) :
  loadCollegesData_loop lines acc = Ok table <->
  exists ds,
    Forall2 (fun line d => loadCollegesData_line line = Ok d) lines ds
    /\ table = (acc ++ ds)%list.
Proof.
  revert acc. induction lines as [|line lines IH]; intro acc; simpl.
  - split.
    + intro H. injection H as <-. exists []. split; [constructor|].
      now rewrite app_nil_r.
    + intros (ds & F & ->). inversion F. now rewrite app_nil_r.
  - destruct (loadCollegesData_line line) as [d|e] eqn:P; cbn [bind].
    + rewrite IH. split.
      * intros (ds & F & ->). exists (d :: ds). split; [now constructor|].
        now rewrite <- app_assoc.
      * intros (ds & F & ->). inversion F as [|? d' ? ds' Hd F']; subst.
        assert (d' = d) by congruence. subst d'.
        exists ds'. split; [exact F'|]. now rewrite <- app_assoc.
    + split; [discriminate|].
      intros (ds & F & _). inversion F; subst. congruence.
Qed.

Lemma loop_throws (lines : list string) (acc : list CollegeData) (line : string) :
  In line lines ->
  throws (loadCollegesData_line line) ->
  throws (loadCollegesData_loop lines acc).
Proof.
  intros Hin (e & He).
  destruct (loadCollegesData_loop lines acc) as [table|e'] eqn:L;
    [|now exists e'].
  apply loop_Ok in L. destruct L as (ds & F & _).
  exfalso. clear -Hin He F.
  induction F as [|l d ls ds Hd F IH]; [contradiction|].
  destruct Hin as [->|Hin]; [congruence | now apply IH].
Qed.

Lemma in_interval_spec (userRank : Z) (d : CollegeData) :
  in_interval userRank d = true <-> contains d userRank.
Proof.
  unfold in_interval, contains.
  rewrite andb_true_iff, Z.geb_le, Z.leb_le. tauto.
Qed.

Lemma in_interval_false (userRank : Z) (d : CollegeData) :
  ~ contains d userRank -> in_interval userRank d = false.
Proof.
  intro H. destruct (in_interval userRank d) eqn:E; [|reflexivity].
  now apply in_interval_spec in E.
Qed.

Lemma allocate_loop_first (pre post : list CollegeData) (d : CollegeData)
    (userRank : Z) :
  (forall d', In d' pre -> ~ contains d' userRank) ->
  contains d userRank ->
  allocate_loop (pre ++ d :: post)%list userRank = college d.
Proof.
  intros Hpre Hd. induction pre as [|x pre IH]; simpl.
  - apply in_interval_spec in Hd. now rewrite Hd.
  - rewrite in_interval_false by (apply Hpre; now left).
    apply IH. intros d' Hin. apply Hpre. now right.
Qed.

Lemma allocate_loop_none (datas : list CollegeData) (userRank : Z) :
  (forall d, In d datas -> ~ contains d userRank) ->
  allocate_loop datas userRank = no_college.
Proof.
  intro H. induction datas as [|x datas IH]; simpl; [reflexivity|].
  rewrite in_interval_false by (apply H; now left).
  apply IH. intros d Hin. apply H. now right.
Qed.

Lemma contains_dec (d : CollegeData) (userRank : Z) :
  {contains d userRank} + {~ contains d userRank}.
Proof.
  unfold contains.
  destruct (Z_le_dec (rankStart d) userRank);
    destruct (Z_le_dec userRank (rankEnd d)); (left; lia) || (right; lia).
Qed.

End ParserFacts.

(** ** The allocation strategies *)

Section Allocation.
Import CollegeCounseling ParserFacts.

Lemma allocate_at_first_index (table : list CollegeData) (userRank : Z)
    (i : nat) (d : CollegeData) :
  nth_error table i = Some d ->
  contains d userRank ->
  (forall j d', (j < i)%nat -> nth_error table j = Some d' ->
                ~ contains d' userRank) ->
  allocate_loop table userRank = college d.
Proof.
  intros Hi Hd Hbefore.
  destruct (nth_error_split table i Hi) as (pre & post & -> & Hlen).
  apply allocate_loop_first; [|exact Hd].
  intros d' Hin. apply In_nth_error in Hin. destruct Hin as [j Hj].
  assert (Hlt : (j < i)%nat).
  { rewrite <- Hlen. apply nth_error_Some. congruence. }
  apply (Hbefore j d' Hlt).
  rewrite nth_error_app1 by (rewrite Hlen; exact Hlt). exact Hj.
Qed.

Lemma first_containing_index (table : list CollegeData) (userRank : Z) :
  (exists d, In d table /\ contains d userRank) ->
  exists i d,
    nth_error table i = Some d /\ contains d userRank
    /\ forall j d', (j < i)%nat -> nth_error table j = Some d' ->
                    ~ contains d' userRank.
Proof.
  induction table as [|x table IH]; intros (d & Hin & Hd).
  - contradiction.
  - destruct (contains_dec x userRank) as [Hx|Hx].
    + exists 0%nat, x. split; [reflexivity|]. split; [exact Hx|].
      intros j d' Hj. lia.
    + destruct Hin as [->|Hin]; [contradiction|].
      destruct IH as (i & d0 & Hi & Hd0 & Hb); [now exists d|].
      exists (S i), d0. split; [exact Hi|]. split; [exact Hd0|].
      intros [|j] d' Hj Hn; simpl in Hn.
      * now injection Hn as <-.
      * apply (Hb j d'); [lia | exact Hn].
Qed.

(** C1. For a table parsed from a data file, whose records are the
    lines of the file in their order, and for every rank:
    [allocateCollege] returns the label of the first record whose
    interval contains the rank, and the text "No college allocated for
    your rank." when no interval contains it; of two records whose
    intervals both contain the rank, the later one never hides the
    earlier one. *)
Theorem allocateCollege_first_match (fs : FileSystem) (dataFile : string)
    (table : list CollegeData) (userRank : Z) :
  loadCollegesData fs dataFile = Ok table ->
  let this := mkRankIntervalStrategy table in
  (exists text,
      fs dataFile = Some text
      /\ Forall2 (fun line d => loadCollegesData_line line = Ok d)
                 (std.getlines text) table)
  /\ (forall i d,
        nth_error table i = Some d ->
        contains d userRank ->
        (forall j d', (j < i)%nat -> nth_error table j = Some d' ->
                      ~ contains d' userRank) ->
        allocateCollege this userRank = college d)
  /\ ((forall d, In d table -> ~ contains d userRank) ->
      allocateCollege this userRank = "No college allocated for your rank.")
  /\ (forall i j di dj,
        (i < j)%nat ->
        nth_error table i = Some di -> nth_error table j = Some dj ->
        contains di userRank -> contains dj userRank ->
        exists k dk,
          (k <= i)%nat /\ nth_error table k = Some dk
          /\ contains dk userRank
          /\ allocateCollege this userRank = college dk).
Proof.
  intros Hload this. split; [|split; [|split]].
  - unfold loadCollegesData in Hload.
    destruct (fs dataFile) as [text|]; [|discriminate].
    exists text. split; [reflexivity|].
    apply loop_Ok in Hload. destruct Hload as (ds & F & ->). exact F.
  - intros i d. apply allocate_at_first_index.
  - apply allocate_loop_none.
  - intros i j di dj Hij Hi Hj Hdi Hdj.
    destruct (first_containing_index table userRank) as (k & dk & Hk & Hdk & Hb).
    { exists di. split; [eapply nth_error_In; exact Hi | exact Hdi]. }
    exists k, dk. split; [|split; [exact Hk|split; [exact Hdk|]]].
    + destruct (Nat.le_gt_cases k i) as [Hle|Hgt]; [exact Hle|].
      exfalso. exact (Hb i di Hgt Hi Hdi).
    + now apply allocate_at_first_index with (i := k).
Qed.

Lemma allocateCollege_first_match_witness :
  loadCollegesData example_fs "project.txt" = Ok example_table
  /\ allocateCollege (mkRankIntervalStrategy example_table) 250
     = "State College"
  /\ allocateCollege (mkRankIntervalStrategy example_table) 50
     = "No college allocated for your rank.".
Proof.
  split; [reflexivity|].
  destruct (allocateCollege_first_match example_fs "project.txt"
              example_table 250 eq_refl) as (_ & Hfirst & _).
  destruct (allocateCollege_first_match example_fs "project.txt"
              example_table 50 eq_refl) as (_ & _ & Hnone & _).
  split.
  - apply (Hfirst 1%nat (mkCollegeData 201 300 "State College") eq_refl).
    + unfold contains; simpl; lia.
    + intros [|[|j]] d' Hj Hn; [|lia|lia].
      injection Hn as <-. unfold contains; simpl; lia.
  - apply Hnone.
    intros d [<-|[<-|[]]]; unfold contains; simpl; lia.
Defined.

(** Two lines whose intervals overlap: the earlier line answers. *)
Example overlap_earlier_line :
  loadCollegesData (fun _ => Some ("1-10:A" ++ std.endl ++ "5-20:B")) "d"
  = Ok [mkCollegeData 1 10 "A"; mkCollegeData 5 20 "B"]
  /\ allocateCollege
       (mkRankIntervalStrategy [mkCollegeData 1 10 "A"; mkCollegeData 5 20 "B"])
       7 = "A".
Proof. split; reflexivity. Qed.

(** C6. Each of the two fixed strategies returns its own constant text
    whatever the rank: the same text for any two ranks. *)
Theorem fixed_strategies_ignore_rank (r1 r2 : Z) :
  allocateCollege mkAnotherStrategy r1 = allocateCollege mkAnotherStrategy r2
  /\ allocateCollege mkAnotherStrategy r1 = "not eligible for round two"
  /\ allocateCollege mkYetAnotherStrategy r1
     = allocateCollege mkYetAnotherStrategy r2
  /\ allocateCollege mkYetAnotherStrategy r1 = "not eligible for round three"
  /\ (forall name,
        getRankAllocation mkAnotherStrategy (mkCollegeApplication name r1)
        = "not eligible for round two"
        /\ getRankAllocation mkYetAnotherStrategy (mkCollegeApplication name r1)
           = "not eligible for round three").
Proof. repeat split. Qed.

End Allocation.

(** ** The format of a line of the data file *)

Section LineFormat.
Import CollegeCounseling ParserFacts.

(** C3. A line without ':' and a line whose text before the first ':'
    has no '-' make the parser throw, each with the message of its
    check, and so does loading any file that has such a line; the lines
    "abc:College" and "1-5" are two of them. *)
Theorem missing_separator_throws :
  (forall line,
      count_char ":" line = 0%nat ->
      loadCollegesData_line line =
      Throw (runtime_error "Error: Invalid data format in the data file."))
  /\ (forall range label,
        count_char ":" range = 0%nat ->
        count_char "-" range = 0%nat ->
        loadCollegesData_line (range ++ ":" ++ label) =
        Throw (runtime_error "Error: Invalid rank range in the data file."))
  /\ (forall (fs : FileSystem) dataFile text line,
        fs dataFile = Some text ->
        In line (std.getlines text) ->
        (count_char ":" line = 0%nat
         \/ exists range label,
             line = range ++ ":" ++ label
             /\ count_char ":" range = 0%nat
             /\ count_char "-" range = 0%nat) ->
        throws (loadCollegesData fs dataFile))
  /\ loadCollegesData_line "abc:College" =
     Throw (runtime_error "Error: Invalid rank range in the data file.")
  /\ loadCollegesData_line "1-5" =
     Throw (runtime_error "Error: Invalid data format in the data file.").
Proof.
  split; [exact line_no_colon|]. split; [exact line_no_hyphen|].
  split; [|split; reflexivity].
  intros fs dataFile text line Hfs Hin Hbad.
  unfold loadCollegesData. rewrite Hfs.
  apply loop_throws with (line := line); [exact Hin|].
  destruct Hbad as [H|(range & label & -> & Hc & Hh)].
  - eexists. now apply line_no_colon.
  - eexists. now apply line_no_hyphen.
Qed.

Lemma missing_separator_throws_witness :
  throws (loadCollegesData
            (fun _ => Some ("1-5:A" ++ std.endl ++ "abc:College")) "d.txt").
Proof.
  destruct missing_separator_throws as (_ & _ & H & _).
  apply (H _ "d.txt" ("1-5:A" ++ std.endl ++ "abc:College") "abc:College"
           eq_refl).
  - simpl. right. left. reflexivity.
  - right. exists "abc", "College". repeat split.
Defined.

(** C4, the claim as written fails: a line with two ':' and with two
    '-' before the first ':' is accepted. *)
Lemma single_separators_counterexample :
  loadCollegesData_line "1-5-7:A:B" = Ok (mkCollegeData 1 5 "A:B")
  /\ count_char ":" "1-5-7:A:B" = 2%nat
  /\ count_char "-" "1-5-7" = 2%nat.
Proof. repeat split. Qed.

(** C4, amended. A line is accepted exactly when it has a ':', the text
    before its first ':' has a '-', and [stoi] accepts the text before
    the first '-' and the text between that '-' and the first ':'. The
    label is all that follows the first ':', further ':' included; a
    further '-' belongs to the second half that [stoi] is given. *)
Theorem line_accepted_iff (line : string) (d : CollegeData) :
  loadCollegesData_line line = Ok d <->
  exists a b label,
    line = a ++ "-" ++ b ++ ":" ++ label
    /\ count_char "-" a = 0%nat
    /\ count_char ":" a = 0%nat
    /\ count_char ":" b = 0%nat
    /\ std.stoi a = Ok (rankStart d)
    /\ std.stoi b = Ok (rankEnd d)
    /\ college d = label.
Proof.
  split; [apply line_Ok_inv|].
  intros (a & b & label & -> & Ha & Hca & Hcb & Sa & Sb & L).
  rewrite line_halves by assumption. rewrite Sa, Sb. cbn [bind].
  destruct d as [s e l]. cbn in L. now subst l.
Qed.

Lemma line_accepted_iff_witness :
  loadCollegesData_line "1--5:A:B" = Ok (mkCollegeData 1 (-5) "A:B").
Proof.
  apply (line_accepted_iff "1--5:A:B" (mkCollegeData 1 (-5) "A:B")).
  exists "1", "-5", "A:B". repeat split.
Defined.

(** C5, the claim as written fails: halves with white space in front
    and with other characters behind the digits are accepted. *)
Lemma strict_rank_halves_counterexample :
  loadCollegesData_line " 12abc- 34 :X" = Ok (mkCollegeData 12 34 "X")
  /\ std.stoi " 12abc" = Ok 12
  /\ std.stoi " 34 " = Ok 34.
Proof. repeat split. Qed.

(** C5, amended. The text before the first '-' and the text between it
    and the first ':' are given to [stoi] as they are. A half is
    accepted exactly when it is some white space, a sign or none, a run
    of digits that is not empty and whose value fits an [int], and any
    rest that does not go on with a digit; the white space and the rest
    are ignored. Otherwise parsing throws: [invalid_argument] when the
    digits are missing, [out_of_range] when the value does not fit. *)
Theorem rank_halves_go_to_stoi :
  (forall a b label,
      count_char "-" a = 0%nat ->
      count_char ":" a = 0%nat ->
      count_char ":" b = 0%nat ->
      loadCollegesData_line (a ++ "-" ++ b ++ ":" ++ label) =
      (s <- std.stoi a ;; e <- std.stoi b ;; Ok (mkCollegeData s e label))
      /\ (throws (loadCollegesData_line (a ++ "-" ++ b ++ ":" ++ label))
          <-> throws (std.stoi a) \/ throws (std.stoi b)))
  /\ (forall s v,
        std.stoi s = Ok v <->
        exists w sg ds rest,
          s = w ++ sg ++ ds ++ rest
          /\ all_chars std.isspace w = true
          /\ is_sign sg
          /\ all_chars std.isdigit ds = true /\ ds <> ""
          /\ starts_with std.isdigit rest = false
          /\ v = signed sg (decimal ds)
          /\ std.INT_MIN <= v <= std.INT_MAX)
  /\ (forall s,
        (exists v, std.stoi s = Ok v)
        \/ (std.stoi s = Throw (invalid_argument "stoi")
            /\ std.read_integer (std.skip_space s) = None)
        \/ (std.stoi s = Throw (out_of_range "stoi")
            /\ exists v rest,
                std.read_integer (std.skip_space s) = Some (v, rest)
                /\ ~ std.INT_MIN <= v <= std.INT_MAX)).
Proof.
  split; [|split; [exact stoi_spec|]].
  - intros a b label Ha Hca Hcb. rewrite line_halves by assumption.
    split; [reflexivity|]. unfold throws.
    destruct (std.stoi a) as [s|ea]; cbn [bind].
    + destruct (std.stoi b) as [e|eb]; cbn [bind].
      * split; [intros (x & H); discriminate|].
        intros [(x & H)|(x & H)]; discriminate.
      * split; [intros _; right; now exists eb | intros _; now exists eb].
    + split; [intros _; left; now exists ea | intros _; now exists ea].
  - intro s. unfold std.stoi.
    destruct (std.read_integer (std.skip_space s)) as [[v rest]|];
      [|right; left; split; reflexivity].
    destruct ((std.INT_MIN <=? v) && (v <=? std.INT_MAX)) eqn:B.
    + left. now exists v.
    + right. right. split; [reflexivity|]. exists v, rest.
      split; [reflexivity|]. intros [B1 B2].
      apply Z.leb_le in B1. apply Z.leb_le in B2.
      rewrite B1, B2 in B. discriminate.
Qed.

Lemma rank_halves_go_to_stoi_witness :
  loadCollegesData_line ("x1" ++ "-" ++ "5" ++ ":" ++ "A")
  = Throw (invalid_argument "stoi")
  /\ std.stoi "	 +007 and more" = Ok 7.
Proof.
  destruct rank_halves_go_to_stoi as (H1 & H2 & _). split.
  - rewrite (proj1 (H1 "x1" "5" "A" eq_refl eq_refl eq_refl)). reflexivity.
  - apply H2. exists "	 ", "+", "007", " and more".
    repeat split; try reflexivity; try discriminate.
    right. left. reflexivity.
Defined.

(** C10. A data file with no line at all is read without error into
    the empty table, and every rank is then answered by "No college
    allocated for your rank.". *)
Theorem empty_dataset (fs : FileSystem) (dataFile text : string) :
  fs dataFile = Some text ->
  std.getlines text = [] ->
  loadCollegesData fs dataFile = Ok []
  /\ (forall p,
        fst (RankIntervalStrategy_new fs dataFile p)
        = Ok (mkRankIntervalStrategy []))
  /\ (forall userRank,
        allocateCollege (mkRankIntervalStrategy []) userRank
        = "No college allocated for your rank.").
Proof.
  intros Hfs Hlines.
  assert (L : loadCollegesData fs dataFile = Ok []).
  { unfold loadCollegesData. rewrite Hfs, Hlines. reflexivity. }
  split; [exact L|]. split; [|reflexivity].
  intro p. unfold RankIntervalStrategy_new. now rewrite L.
Qed.

Lemma empty_dataset_witness :
  loadCollegesData (fun _ => Some "") "project.txt" = Ok []
  /\ allocateCollege (mkRankIntervalStrategy []) 150
     = "No college allocated for your rank.".
Proof.
  destruct (empty_dataset (fun _ => Some "") "project.txt" "" eq_refl eq_refl)
    as (H1 & _ & H3).
  split; [exact H1 | exact (H3 150)].
Defined.

End LineFormat.

(** ** The driver *)

Section Driver.
Import CollegeCounseling.

Lemma main_try_cases (fs : FileSystem) (p : Process) :
  main_try_outcome fs p (main_try fs p).
Proof.
  unfold main_try, main_try_from, bindM, open_or_throw, put_cout, with_cin,
    displayAllocationResult, getTotalInstances, RankIntervalStrategy_new.
  destruct (fs "data.txt") as [pathText|] eqn:F1; cbn [ret raise];
    [|now apply no_indirection_file].
  destruct (fs (fst (std.read_line pathText))) as [text|] eqn:F2;
    cbn [ret raise]; [|now apply no_data_file with (pathText := pathText)].
  cbn [cin cout cerr totalInstances].
  destruct (getline (ws (cin p)) "") as [ins1 userName] eqn:G.
  cbn [cin cout cerr totalInstances].
  destruct (extract_int ins1 0) as [ins userRank] eqn:X.
  cbn [cin cout cerr totalInstances].
  assert (X' : extract_int (fst (getline (ws (cin p)) "")) 0 = (ins, userRank))
    by (rewrite G; exact X).
  destruct (failbit ins) eqn:Fb; cbn [ret raise].
  - now apply bad_rank with (pathText := pathText) (text := text)
                            (userRank := userRank).
  - destruct (loadCollegesData fs (fst (std.read_line pathText)))
      as [table|e] eqn:L.
    + now apply (allocated fs p pathText text ins userRank table).
    + now apply (bad_data fs p pathText text ins userRank e).
Qed.




Lemma read_line_app (l rest : string) :
  count_char std.newline l = 0%nat ->
  std.read_line (l ++ String std.newline rest) = (l, Some rest).
Proof.
  induction l as [|c l IH]; cbn [append std.read_line count_char]; intro H.
  - now rewrite Ascii.eqb_refl.
  - destruct (Ascii.eqb c std.newline); [discriminate|].
    now rewrite IH.
Qed.

Lemma read_line_Some (b l rest : string) :
  std.read_line b = (l, Some rest) ->
  b = l ++ String std.newline rest /\ count_char std.newline l = 0%nat.
Proof.
  revert l. induction b as [|c b IH]; intro l; cbn [std.read_line].
  - discriminate.
  - destruct (Ascii.eqb c std.newline) eqn:E.
    + intro H. injection H as <- <-. apply Ascii.eqb_eq in E. now subst c.
    + destruct (std.read_line b) as [l' r'] eqn:R.
      intro H. injection H as <- ->.
      destruct (IH l' eq_refl) as [-> C].
      cbn [append count_char]. rewrite E. now split.
Qed.

Lemma read_name (w name rest : string) :
  all_chars std.isspace w = true ->
  name <> "" ->
  starts_with std.isspace name = false ->
  count_char std.newline name = 0%nat ->
  getline (ws (mkIstream (w ++ name ++ std.endl ++ rest) false false)) ""
  = (mkIstream rest false false, name).
Proof.
  intros Hw Hne Hsp Hnl.
  unfold ws, good. cbn [rdbuf eofbit failbit negb andb].
  rewrite skip_space_app by exact Hw.
  rewrite skip_space_id by (destruct name; [contradiction | exact Hsp]).
  replace (is_empty (name ++ std.endl ++ rest)) with false
    by (destruct name; [contradiction | reflexivity]).
  unfold getline, good. cbn [rdbuf eofbit failbit negb andb].
  unfold std.endl. cbn [append]. now rewrite read_line_app.
Qed.

Lemma extract_int_ok (b after : string) (v n : Z) :
  std.read_integer (std.skip_space b) = Some (v, after) ->
  in_int_range v ->
  extract_int (mkIstream b false false) n
  = (mkIstream after (is_empty after) false, v).
Proof.
  intros R [V1 V2]. unfold extract_int, good.
  cbn [rdbuf eofbit failbit negb andb].
  destruct (std.skip_space b) as [|c s] eqn:E; [discriminate|].
  cbn [is_empty]. rewrite R.
  apply Z.ltb_ge in V1. apply Z.ltb_ge in V2. now rewrite V1, V2.
Qed.

Lemma integer_prefix_read (s rest : string) (v : Z) :
  integer_prefix s v rest <->
  std.read_integer (std.skip_space s) = Some (v, rest).
Proof.
  split.
  - intros (w & sg & ds & -> & Hw & Hsg & Hd & Hne & Hr & ->).
    assert (R : std.read_integer (sg ++ ds ++ rest)
                = Some (signed sg (decimal ds), rest)).
    { apply read_integer_spec. exists sg, ds. repeat split; assumption. }
    rewrite skip_space_app by exact Hw.
    rewrite skip_space_id by (eapply read_integer_rest; exact R).
    exact R.
  - intro R. destruct (skip_space_split s) as (w & E & Hw & _).
    apply read_integer_spec in R.
    destruct R as (sg & ds & E' & Hsg & Hd & Hne & Hr & V).
    exists w, sg, ds. rewrite <- E'. repeat split; assumption.
Qed.

(** An input that gives a rank: the extraction stores that rank and
    does not fail, whatever the variable held. *)
Lemma gives_rank_extracts (stdin : string) (v n : Z) :
  gives_rank stdin v ->
  exists after,
    extract_int (fst (getline (ws (cin (start stdin))) "")) n
    = (mkIstream after (is_empty after) false, v).
Proof.
  intros (w & name & rankText & rest & -> & Hw & Hne & Hsp & Hnl & P & V).
  exists rest. unfold start. cbn [cin]. rewrite read_name by assumption.
  cbn [fst]. apply extract_int_ok; [now apply integer_prefix_read | exact V].
Qed.

(** An extraction that does not fail: the input gives the rank stored. *)
Lemma extracts_gives_rank (stdin : string) (n : Z) :
  failbit (fst (extract_int (fst (getline (ws (cin (start stdin))) "")) n))
  = false ->
  gives_rank stdin
    (snd (extract_int (fst (getline (ws (cin (start stdin))) "")) n)).
Proof.
  unfold start. cbn [cin]. unfold ws, good.
  cbn [rdbuf eofbit failbit negb andb].
  destruct (skip_space_split stdin) as (w & E & Hw & Hb).
  destruct (std.skip_space stdin) as [|c b] eqn:Sk; cbn [is_empty].
  { unfold getline, good. cbn [rdbuf eofbit failbit negb andb fst].
    unfold extract_int, good, setstate_fail.
    cbn [rdbuf eofbit failbit negb andb fst]. discriminate. }
  unfold getline, good. cbn [rdbuf eofbit failbit negb andb].
  destruct (std.read_line (String c b)) as [l [rest|]] eqn:R; cbn [fst].
  2:{ unfold extract_int, good, setstate_fail.
      cbn [rdbuf eofbit failbit negb andb fst]. discriminate. }
  apply read_line_Some in R. destruct R as [Eb Hnl].
  unfold extract_int, good. cbn [rdbuf eofbit failbit negb andb].
  destruct (is_empty (std.skip_space rest)); cbn [fst snd failbit];
    [discriminate|].
  destruct (std.read_integer (std.skip_space rest)) as [[v after]|] eqn:RI;
    cbn [fst snd failbit]; [|discriminate].
  destruct (v <? std.INT_MIN) eqn:Lo; cbn [fst snd failbit]; [discriminate|].
  destruct (std.INT_MAX <? v) eqn:Hi; cbn [fst snd failbit]; [discriminate|].
  intros _. apply Z.ltb_ge in Lo. apply Z.ltb_ge in Hi.
  exists w, l, rest, after. rewrite E, Eb.
  assert (Hl : l <> "").
  { intros ->. cbn [append] in Eb. injection Eb as -> _.
    cbn [starts_with] in Hb. discriminate Hb. }
  assert (Hls : starts_with std.isspace l = false).
  { destruct l as [|c' l']; [contradiction|].
    cbn [append] in Eb. injection Eb as -> _. exact Hb. }
  repeat split; try assumption.
  now apply integer_prefix_read.
Qed.

(** What the uninitialised variable held has no effect on the [try]
    block. *)
Lemma main_try_from_any (fs : FileSystem) (n m : Z) (p : Process) :
  main_try_from fs n p = main_try_from fs m p.
Proof.
  unfold main_try_from, bindM, open_or_throw, put_cout, with_cin.
  destruct (fs "data.txt") as [pathText|]; cbn [ret raise]; [|reflexivity].
  destruct (fs (fst (std.read_line pathText))); cbn [ret raise];
    [|reflexivity].
  cbn [cin cout cerr totalInstances].
  destruct (getline (ws (cin p)) "") as [ins1 userName].
  cbn [cin cout cerr totalInstances].
  assert (A : fst (extract_int ins1 n) = fst (extract_int ins1 m)
              /\ (failbit (fst (extract_int ins1 n)) = false ->
                  snd (extract_int ins1 n) = snd (extract_int ins1 m))).
  { unfold extract_int. destruct (good ins1); cbn [fst snd failbit];
      [|split; [reflexivity | discriminate]].
    destruct (is_empty (std.skip_space (rdbuf ins1))); cbn [fst snd failbit];
      [split; [reflexivity | discriminate]|].
    split; reflexivity. }
  destruct A as [A1 A2].
  destruct (extract_int ins1 n) as [i1 r1].
  destruct (extract_int ins1 m) as [i2 r2].
  cbn [fst snd] in A1, A2. subst i2.
  cbn [cin cout cerr totalInstances].
  destruct (failbit i1); cbn [ret raise]; [reflexivity|].
  now rewrite (A2 eq_refl).
Qed.

(** C7, the claim as written fails: a rank text that is not an integer
    but begins with one is read as that integer, the strategy is
    constructed, the results are written and the counter is [1]. *)
Lemma integer_prefix_rank_counterexample :
  main example_fs ("Ann Lee" ++ std.endl ++ "12abc")
  = (0, mkProcess (mkIstream "abc" false false)
                  (full_output "" example_table 12 1) "" 1)
  /\ main example_fs ("Ann Lee" ++ std.endl ++ "150.75")
     = (0, mkProcess (mkIstream ".75" false false)
                     (full_output "" example_table 150 1) "" 1).
Proof. split; reflexivity. Qed.

(** C7, amended. When the two files can be opened and the standard
    input does not give a rank, that is, unless it holds a name line
    (after white space or none, a line that is not empty) and, after it,
    a text that begins, white space apart, with a sign or none and
    digits whose value fits an [int], the [try] block throws the error of
    the rank check, whatever the data file holds: the constructor has not
    run, the counter is [0], and nothing but the two prompts has been
    written to the standard output. What follows the digits does not
    matter. *)
Theorem invalid_rank_before_construction (fs : FileSystem)
    (stdin pathText text : string) :
  fs "data.txt" = Some pathText ->
  fs (fst (std.read_line pathText)) = Some text ->
  (forall v, ~ gives_rank stdin v) ->
  exists p,
    main_try fs (start stdin) = (Throw (runtime_error invalid_rank), p)
    /\ totalInstances p = 0
    /\ cout p = prompt_name ++ prompt_rank
    /\ totalInstances (snd (main fs stdin)) = 0
    /\ cout (snd (main fs stdin)) = prompt_name ++ prompt_rank
    /\ cerr (snd (main fs stdin)) = invalid_rank ++ std.endl.
Proof.
  intros F1 F2 Hno. unfold main.
  destruct (main_try_cases fs (start stdin))
    as [N1 | pt N1 N2 | pt tx ins r E1 E2 X Fb
        | pt tx ins r e E1 E2 X Fb L | pt tx ins r tb E1 E2 X Fb L];
    try congruence.
  - eexists. split; [reflexivity|]. repeat split.
  - exfalso. apply (Hno r).
    pose proof (extracts_gives_rank stdin 0) as G.
    rewrite X in G. cbn [fst snd] in G. now apply G.
  - exfalso. apply (Hno r).
    pose proof (extracts_gives_rank stdin 0) as G.
    rewrite X in G. cbn [fst snd] in G. now apply G.
Qed.

Lemma invalid_rank_before_construction_witness :
  cerr (snd (main example_fs ("Ann Lee" ++ std.endl ++ "abc")))
  = invalid_rank ++ std.endl
  /\ totalInstances (snd (main example_fs ("Ann Lee" ++ std.endl ++ "abc")))
     = 0.
Proof.
  destruct (invalid_rank_before_construction example_fs
              ("Ann Lee" ++ std.endl ++ "abc") "project.txt"
              ("100-200:Tech U" ++ std.endl ++ "201-300:State College")
              eq_refl eq_refl) as (p & _ & _ & _ & T & _ & E).
  - intros v G. destruct (gives_rank_extracts _ v 0 G) as [after H].
    vm_compute in H. discriminate H.
  - split; [exact E | exact T].
Defined.

(** C8. [main] returns [0] in every run. When the [try] block throws,
    for a file that cannot be opened, a malformed data file or a rank
    that cannot be read, the message of the exception and a newline are
    what is written to the standard error, and the standard output has
    at most the two prompts, hence no result line; when it does not
    throw, nothing is written to the standard error and the four lines
    of results are written to the standard output. *)
Theorem main_returns_zero (fs : FileSystem) (stdin : string) :
  fst (main fs stdin) = 0
  /\ (forall e p,
        main_try fs (start stdin) = (Throw e, p) ->
        cerr (snd (main fs stdin)) = what e ++ std.endl
        /\ (cout (snd (main fs stdin)) = ""
            \/ cout (snd (main fs stdin)) = prompt_name ++ prompt_rank)
        /\ (e = runtime_error "Error: Cannot open data.txt"
            \/ e = runtime_error "Error: Cannot open project.txt"
            \/ e = runtime_error invalid_rank
            \/ exists dataFile, loadCollegesData fs dataFile = Throw e))
  /\ (forall u p,
        main_try fs (start stdin) = (Ok u, p) ->
        cerr (snd (main fs stdin)) = ""
        /\ exists table userRank,
            cout (snd (main fs stdin)) = full_output "" table userRank 1)
  /\ (fs "data.txt" = None ->
      main fs stdin
      = (0, mkProcess (cin (start stdin)) ""
                      ("Error: Cannot open data.txt" ++ std.endl) 0)).
Proof.
  unfold main.
  destruct (main_try_cases fs (start stdin))
    as [N1 | pt N1 N2 | pt tx ins r E1 E2 X Fb
        | pt tx ins r e E1 E2 X Fb L | pt tx ins r tb E1 E2 X Fb L];
    (split; [reflexivity|]);
    (split; [intros e' p' H; injection H as <- <- || discriminate H
            | split; [intros u' p' H; try discriminate H
                     | try (intro; congruence)]]).
  - repeat split; auto.
  - reflexivity.
  - repeat split; auto.
  - repeat split; auto.
  - repeat split; auto. do 3 right. eexists. exact L.
  - split; [reflexivity|]. exists tb, r. reflexivity.
Qed.

Lemma main_returns_zero_witness :
  main example_fs ("Ann Lee" ++ std.endl ++ "250")
  = (0, mkProcess (mkIstream "" true false)
                  (full_output "" example_table 250 1) "" 1)
  /\ fst (main (fun _ => None) "Ann Lee") = 0.
Proof.
  split; [reflexivity|].
  exact (proj1 (main_returns_zero (fun _ => None) "Ann Lee")).
Defined.

(** C9. In a run whose [try] block reaches its end, the counter is [1]
    and the last line written to the standard output is "Total
    instances of RankIntervalStrategy: 1". *)
Theorem final_count_is_one (fs : FileSystem) (stdin : string)
    (u : unit) (p : Process) :
  main_try fs (start stdin) = (Ok u, p) ->
  totalInstances p = 1
  /\ snd (main fs stdin) = p
  /\ exists out,
      cout p = out ++ "Total instances of RankIntervalStrategy: 1" ++ std.endl.
Proof.
  intro H. unfold main. rewrite H. cbn [snd].
  destruct (main_try_cases fs (start stdin))
    as [N1 | pt N1 N2 | pt tx ins r E1 E2 X Fb
        | pt tx ins r e E1 E2 X Fb L | pt tx ins r tb E1 E2 X Fb L];
    try discriminate H.
  injection H as _ <-. split; [reflexivity|]. split; [reflexivity|].
  cbn [cout]. unfold full_output. eexists. reflexivity.
Qed.

Lemma final_count_is_one_witness :
  totalInstances
    (snd (main_try example_fs (start ("Ann Lee" ++ std.endl ++ "150")))) = 1.
Proof.
  exact (proj1 (final_count_is_one example_fs
                  ("Ann Lee" ++ std.endl ++ "150") tt _ eq_refl)).
Defined.

End Driver.

(** ** Decimal text of an [int] and its conversion back *)

Section DecimalText.
Import CollegeCounseling ParserFacts.

Lemma uint_all_digits (d : Decimal.uint) :
  all_chars std.isdigit (NilEmpty.string_of_uint d) = true.
Proof.
  induction d; cbn [NilEmpty.string_of_uint all_chars];
    try rewrite IHd; reflexivity.
Qed.

Lemma uint_text_nonempty (d : Decimal.uint) :
  d <> Decimal.Nil -> NilEmpty.string_of_uint d <> "".
Proof. destruct d; [contradiction | discriminate ..]. Qed.

Lemma decimal_acc (d : Decimal.uint) (acc : positive) :
  fold_left decimal_step (list_ascii_of_string (NilEmpty.string_of_uint d))
            (Z.pos acc)
  = Z.pos (Pos.of_uint_acc d acc).
Proof.
  revert acc.
  induction d; intro acc;
    cbn [NilEmpty.string_of_uint list_ascii_of_string fold_left Pos.of_uint_acc];
    [reflexivity | ..];
    rewrite <- IHd; f_equal; unfold decimal_step;
    match goal with
    | |- context [std.digit_value ?c] =>
        let v := eval vm_compute in (std.digit_value c) in
        change (std.digit_value c) with v
    end; lia.
Qed.

Lemma decimal_uint (d : Decimal.uint) :
  decimal (NilEmpty.string_of_uint d) = Z.of_uint d.
Proof.
  unfold decimal, Z.of_uint.
  induction d;
    cbn [NilEmpty.string_of_uint list_ascii_of_string fold_left Pos.of_uint];
    [reflexivity | exact IHd | ..];
    match goal with
    | |- context [decimal_step 0 ?c] =>
        let v := eval vm_compute in (decimal_step 0 c) in
        change (decimal_step 0 c) with v
    end; apply decimal_acc.
Qed.

(** The text that [to_string] writes: a minus sign for a negative
    number and none otherwise, then digits, at least one, whose number is
    the absolute value. *)
Lemma to_string_shape (z : Z) :
  exists sg d,
    std.to_string z = sg ++ NilEmpty.string_of_uint d
    /\ d <> Decimal.Nil
    /\ ((sg = "" /\ 0 <= z) \/ (sg = "-" /\ z < 0))
    /\ signed sg (Z.of_uint d) = z.
Proof.
  pose proof (DecimalZ.of_to z) as OT.
  unfold std.to_string. destruct z as [|p|p]; cbn [Z.to_int] in *.
  - exists "", Decimal.zero. repeat split; try discriminate.
    left. split; [reflexivity | lia].
  - exists "", (Pos.to_uint p).
    pose proof (DecimalPos.Unsigned.to_uint_nonnil p) as NN.
    split; [|split; [exact NN|split; [left; split; [reflexivity|lia]|exact OT]]].
    cbn [NilZero.string_of_int]. unfold NilZero.string_of_uint.
    destruct (Pos.to_uint p); [contradiction | reflexivity ..].
  - exists "-", (Pos.to_uint p).
    pose proof (DecimalPos.Unsigned.to_uint_nonnil p) as NN.
    split; [|split; [exact NN|split; [right; split; [reflexivity|lia]|exact OT]]].
    cbn [NilZero.string_of_int]. unfold NilZero.string_of_uint.
    destruct (Pos.to_uint p); [contradiction | reflexivity ..].
Qed.

Lemma digits_count_char (c : ascii) (s : string) :
  std.isdigit c = false ->
  all_chars std.isdigit s = true ->
  count_char c s = 0%nat.
Proof.
  intros Hc. induction s as [|d s IH]; cbn [all_chars count_char]; intro H.
  - reflexivity.
  - apply andb_prop in H. destruct H as [Hd Hs].
    destruct (Ascii.eqb d c) eqn:E.
    + apply Ascii.eqb_eq in E. congruence.
    + now rewrite IH.
Qed.

End DecimalText.

(** ** Lines written from records *)

Section WrittenLines.
Import CollegeCounseling ParserFacts.

Lemma string_app_nil_r (s : string) : s ++ "" = s.
Proof. induction s as [|c s IH]; simpl; [reflexivity | now rewrite IH]. Qed.

Lemma stoi_to_string (z : Z) (rest : string) :
  in_int_range z ->
  starts_with std.isdigit rest = false ->
  std.stoi (std.to_string z ++ rest) = Ok z.
Proof.
  intros Hz Hrest.
  destruct (to_string_shape z) as (sg & d & E & Hd & Hsg & V).
  apply stoi_spec. exists "", sg, (NilEmpty.string_of_uint d), rest.
  rewrite E, string_app_assoc. cbn [append].
  split; [reflexivity|]. split; [reflexivity|].
  split; [destruct Hsg as [[-> _]|[-> _]]; unfold is_sign; auto|].
  split; [apply uint_all_digits|]. split; [now apply uint_text_nonempty|].
  split; [exact Hrest|]. rewrite decimal_uint. split; [now rewrite V | exact Hz].
Qed.

Lemma to_string_no_colon (z : Z) : count_char ":" (std.to_string z) = 0%nat.
Proof.
  destruct (to_string_shape z) as (sg & d & -> & _ & Hsg & _).
  rewrite count_char_app.
  rewrite (digits_count_char ":" _ eq_refl (uint_all_digits d)).
  destruct Hsg as [[-> _]|[-> _]]; reflexivity.
Qed.

Lemma to_string_no_newline (z : Z) :
  count_char std.newline (std.to_string z) = 0%nat.
Proof.
  destruct (to_string_shape z) as (sg & d & -> & _ & Hsg & _).
  rewrite count_char_app.
  rewrite (digits_count_char std.newline _ eq_refl (uint_all_digits d)).
  destruct Hsg as [[-> _]|[-> _]]; reflexivity.
Qed.

Lemma to_string_no_hyphen (z : Z) :
  0 <= z -> count_char "-" (std.to_string z) = 0%nat.
Proof.
  intro Hz. destruct (to_string_shape z) as (sg & d & -> & _ & Hsg & _).
  destruct Hsg as [[-> _]|[_ Hneg]]; [|lia]. cbn [append].
  apply (digits_count_char "-" _ eq_refl (uint_all_digits d)).
Qed.

Lemma written_halves_parse (a b : Z) (label : string) :
  0 <= a <= std.INT_MAX ->
  in_int_range b ->
  loadCollegesData_line
    (std.to_string a ++ "-" ++ std.to_string b ++ ":" ++ label)
  = Ok (mkCollegeData a b label).
Proof.
  intros [Ha1 Ha2] Hb.
  rewrite line_halves;
    [| now apply to_string_no_hyphen | apply to_string_no_colon
     | apply to_string_no_colon].
  rewrite <- (string_app_nil_r (std.to_string a)).
  rewrite stoi_to_string;
    [| unfold in_int_range, std.INT_MIN; lia | reflexivity].
  rewrite <- (string_app_nil_r (std.to_string b)).
  rewrite stoi_to_string; [| exact Hb | reflexivity].
  reflexivity.
Qed.

(** X1. A line written from a start rank that is not negative, an end
    rank and a label, both ranks being values of [int], is read back as
    that very record, whatever the label holds. *)
Theorem written_line_read_back (d : CollegeData) :
  0 <= rankStart d <= std.INT_MAX ->
  in_int_range (rankEnd d) ->
  loadCollegesData_line (line_of d) = Ok d.
Proof.
  intros Ha Hb. destruct d as [a b label]. unfold line_of.
  cbn [rankStart rankEnd college] in *.
  now apply written_halves_parse.
Qed.

Lemma written_line_read_back_witness :
  loadCollegesData_line (line_of (mkCollegeData 0 (-7) "A-1: north"))
  = Ok (mkCollegeData 0 (-7) "A-1: north").
Proof.
  apply written_line_read_back; cbn [rankStart rankEnd];
    unfold in_int_range, std.INT_MIN, std.INT_MAX; lia.
Defined.



End WrittenLines.

(** ** The lines of a file *)

Section FileLines.
Import CollegeCounseling ParserFacts.

Lemma getlines_cons (l rest : string) :
  count_char std.newline l = 0%nat ->
  std.getlines (l ++ std.endl ++ rest) = l :: std.getlines rest.
Proof.
  intro H. rewrite getlines_unfold. unfold std.endl. cbn [append].
  now rewrite read_line_app.
Qed.

Lemma getlines_single (l : string) :
  count_char std.newline l = 0%nat -> l <> "" -> std.getlines l = [l].
Proof.
  induction l as [|c l IH]; [contradiction|].
  cbn [count_char std.getlines]. intros H _.
  destruct (Ascii.eqb c std.newline); [discriminate|].
  destruct l as [|c' l]; [reflexivity|].
  rewrite IH; [reflexivity | exact H | discriminate].
Qed.

Lemma getlines_no_newline (s : string) :
  Forall (fun l => count_char std.newline l = 0%nat) (std.getlines s).
Proof.
  induction s as [|c s IH]; cbn [std.getlines]; [constructor|].
  destruct (Ascii.eqb c std.newline) eqn:E.
  - constructor; [reflexivity | exact IH].
  - destruct (std.getlines s) as [|l ls].
    + constructor; [|constructor]. cbn [count_char]. now rewrite E.
    + inversion IH as [|? ? Hl Hls]; subst.
      constructor; [|exact Hls]. cbn [count_char]. now rewrite E.
Qed.

Lemma getlines_join_lines (ls : list string) (tail : string) :
  Forall (fun l => count_char std.newline l = 0%nat) ls ->
  std.getlines (join_lines ls ++ tail) = (ls ++ std.getlines tail)%list.
Proof.
  induction 1 as [|x ls Hx Hls IH]; cbn [join_lines fold_right app].
  - reflexivity.
  - fold (join_lines ls). rewrite !string_app_assoc.
    rewrite getlines_cons by exact Hx. now rewrite IH.
Qed.

(** X3. Reading back lines that were written one after the other, each
    followed by a newline, gives these lines, the empty ones too; and a
    last line that is not empty is read the same without its newline. *)
Theorem lines_read_back (ls : list string) :
  Forall (fun l => count_char std.newline l = 0%nat) ls ->
  std.getlines (join_lines ls) = ls
  /\ (forall l,
        count_char std.newline l = 0%nat -> l <> "" ->
        std.getlines (join_lines ls ++ l) = (ls ++ [l])%list).
Proof.
  intro H. split.
  - rewrite <- (string_app_nil_r (join_lines ls)).
    rewrite getlines_join_lines by exact H. cbn [std.getlines].
    apply app_nil_r.
  - intros l Hl Hne. rewrite getlines_join_lines by exact H.
    now rewrite getlines_single.
Qed.

Lemma lines_read_back_witness :
  std.getlines (join_lines ["1-5:A"; ""; "6-9:B"]) = ["1-5:A"; ""; "6-9:B"].
Proof.
  apply lines_read_back. repeat constructor.
Defined.

(** X4. The lines keep all of the text but whether its last line ended
    with a newline: written again, they give the text, or the text with
    one newline more. *)
Theorem lines_keep_text (text : string) :
  join_lines (std.getlines text) = text
  \/ join_lines (std.getlines text) = text ++ std.endl.
Proof.
  induction text as [|c s IH]; [now left|].
  cbn [std.getlines].
  destruct (Ascii.eqb c std.newline) eqn:E.
  - apply Ascii.eqb_eq in E. subst c.
    cbn [join_lines fold_right append]. fold (join_lines (std.getlines s)).
    unfold std.endl at 1 3. cbn [append].
    destruct IH as [-> | ->]; [now left | now right].
  - destruct (std.getlines s) as [|l ls] eqn:G.
    + apply getlines_nil in G. subst s. now right.
    + cbn [join_lines fold_right append] in *.
      destruct IH as [-> | ->]; [now left | now right].
Qed.

(** X5. Loading succeeds exactly when the file can be opened and every
    one of its lines is accepted; the table then has as many records as
    the file has lines, nothing being merged, dropped or reordered. *)
Theorem load_succeeds_iff (fs : FileSystem) (dataFile : string)
    (table : list CollegeData) :
  (loadCollegesData fs dataFile = Ok table <->
   exists text,
     fs dataFile = Some text
     /\ Forall2 (fun line d => loadCollegesData_line line = Ok d)
                (std.getlines text) table)
  /\ (forall text,
        fs dataFile = Some text ->
        loadCollegesData fs dataFile = Ok table ->
        List.length table = List.length (std.getlines text)).
Proof.
  assert (A : loadCollegesData fs dataFile = Ok table <->
              exists text,
                fs dataFile = Some text
                /\ Forall2 (fun line d => loadCollegesData_line line = Ok d)
                           (std.getlines text) table).
  { unfold loadCollegesData. destruct (fs dataFile) as [text|].
    - rewrite loop_Ok. split.
      + intros (ds & F & ->). now exists text.
      + intros (t & Ht & F). injection Ht as <-. now exists table.
    - split; [discriminate | intros (t & Ht & _); discriminate]. }
  split; [exact A|].
  intros text Hfs Hload. apply A in Hload.
  destruct Hload as (t & Ht & F). rewrite Hfs in Ht. injection Ht as <-.
  symmetry. eapply Forall2_length. exact F.
Qed.

Lemma load_succeeds_iff_witness :
  List.length example_table
  = List.length
      (std.getlines ("100-200:Tech U" ++ std.endl ++ "201-300:State College")).
Proof.
  exact (proj2 (load_succeeds_iff example_fs "project.txt" example_table)
               _ eq_refl eq_refl).
Defined.

Lemma loop_first_throw (good rest : list string) (bad : string)
    (acc : list CollegeData) (e : exception) :
  Forall (fun l => exists d, loadCollegesData_line l = Ok d) good ->
  loadCollegesData_line bad = Throw e ->
  loadCollegesData_loop (good ++ bad :: rest)%list acc = Throw e.
Proof.
  intros Hgood Hbad. revert acc.
  induction Hgood as [|l good (d & Hd) _ IH]; intro acc;
    cbn [app loadCollegesData_loop].
  - now rewrite Hbad.
  - rewrite Hd. cbn [bind]. apply IH.
Qed.

(** X6. The exception of a load is the one of the first line that is
    not accepted: the lines after it are not looked at, whatever they
    are. *)
Theorem first_bad_line_decides (fs : FileSystem) (dataFile text : string)
    (good rest : list string) (bad : string) (e : exception) :
  fs dataFile = Some text ->
  std.getlines text = (good ++ bad :: rest)%list ->
  Forall (fun l => exists d, loadCollegesData_line l = Ok d) good ->
  loadCollegesData_line bad = Throw e ->
  loadCollegesData fs dataFile = Throw e.
Proof.
  intros Hfs Hlines Hgood Hbad. unfold loadCollegesData.
  rewrite Hfs, Hlines. now apply loop_first_throw.
Qed.

Lemma first_bad_line_decides_witness :
  loadCollegesData
    (fun _ => Some (join_lines ["1-5:A"; "6+9:B"; "oops"])) "d.txt"
  = Throw (runtime_error "Error: Invalid rank range in the data file.").
Proof.
  apply (first_bad_line_decides _ "d.txt"
           (join_lines ["1-5:A"; "6+9:B"; "oops"])
           ["1-5:A"] ["oops"] "6+9:B" _ eq_refl eq_refl).
  - constructor; [|constructor]. now exists (mkCollegeData 1 5 "A").
  - reflexivity.
Defined.

End FileLines.

(** ** Tables that were loaded, and tables written to a file *)

Section LoadedTables.
Import CollegeCounseling ParserFacts.

Lemma stoi_in_range (s : string) (v : Z) :
  std.stoi s = Ok v -> in_int_range v.
Proof.
  intro H. apply stoi_spec in H.
  destruct H as (w & sg & ds & rest & _ & _ & _ & _ & _ & _ & _ & R).
  exact R.
Qed.

Lemma line_record_invariant (line : string) (d : CollegeData) :
  count_char std.newline line = 0%nat ->
  loadCollegesData_line line = Ok d ->
  in_int_range (rankStart d) /\ in_int_range (rankEnd d)
  /\ count_char std.newline (college d) = 0%nat.
Proof.
  intros Hnl H. apply line_Ok_inv in H.
  destruct H as (a & b & label & -> & _ & _ & _ & Sa & Sb & ->).
  split; [eapply stoi_in_range; exact Sa|].
  split; [eapply stoi_in_range; exact Sb|].
  rewrite !count_char_app in Hnl. lia.
Qed.

(** X7. In a table that was loaded, both ranks of every record are
    values of [int] and no label has a newline in it. *)
Theorem loaded_table_invariant (fs : FileSystem) (dataFile : string)
    (table : list CollegeData) :
  loadCollegesData fs dataFile = Ok table ->
  Forall (fun d => in_int_range (rankStart d) /\ in_int_range (rankEnd d)
                   /\ count_char std.newline (college d) = 0%nat) table.
Proof.
  unfold loadCollegesData. destruct (fs dataFile) as [text|]; [|discriminate].
  intro H. apply loop_Ok in H. destruct H as (ds & F & ->). cbn [app].
  pose proof (getlines_no_newline text) as N.
  induction F as [|l d ls ds Hd F IH]; [constructor|].
  inversion N as [|? ? Hl Hls]; subst.
  constructor; [now apply (line_record_invariant l) | now apply IH].
Qed.

Lemma loaded_table_invariant_witness :
  Forall (fun d => in_int_range (rankStart d) /\ in_int_range (rankEnd d)
                   /\ count_char std.newline (college d) = 0%nat)
         example_table.
Proof.
  exact (loaded_table_invariant example_fs "project.txt" example_table eq_refl).
Defined.

Lemma line_of_no_newline (d : CollegeData) :
  count_char std.newline (college d) = 0%nat ->
  count_char std.newline (line_of d) = 0%nat.
Proof.
  intro H. unfold line_of.
  rewrite !count_char_app, !to_string_no_newline, H. reflexivity.
Qed.

(** X8. A table whose start ranks are not negative, whose ranks are
    values of [int] and whose labels have no newline, written to a file
    one record a line, is loaded back as the same table: the same
    records, in the same order, with their repetitions. *)
Theorem written_table_loaded_back (fs : FileSystem) (dataFile : string)
    (table : list CollegeData) :
  Forall (fun d => 0 <= rankStart d <= std.INT_MAX
                   /\ in_int_range (rankEnd d)
                   /\ count_char std.newline (college d) = 0%nat) table ->
  fs dataFile = Some (join_lines (map line_of table)) ->
  loadCollegesData fs dataFile = Ok table.
Proof.
  intros Hok Hfs. unfold loadCollegesData. rewrite Hfs.
  rewrite <- (string_app_nil_r (join_lines (map line_of table))).
  rewrite getlines_join_lines.
  - cbn [std.getlines]. rewrite app_nil_r.
    apply loop_Ok. exists table. split; [|reflexivity]. clear Hfs.
    induction Hok as [|d ds (Hs & He & _) _ IH]; cbn [map]; constructor.
    + destruct d as [a b label]. now apply written_halves_parse.
    + exact IH.
  - clear Hfs.
    induction Hok as [|d ds (_ & _ & Hl) _ IH]; cbn [map]; constructor.
    + now apply line_of_no_newline.
    + exact IH.
Qed.

Lemma written_table_loaded_back_witness :
  loadCollegesData
    (fun _ => Some (join_lines (map line_of (example_table ++ example_table))))
    "copy.txt"
  = Ok (example_table ++ example_table)%list.
Proof.
  apply written_table_loaded_back; [|reflexivity].
  repeat constructor; discriminate.
Defined.

End LoadedTables.

(** ** More on the rank-interval strategy *)

Section MoreAllocation.
Import CollegeCounseling ParserFacts.

Lemma allocate_loop_app_skip (t1 t2 : list CollegeData) (userRank : Z) :
  (forall d, In d t1 -> ~ contains d userRank) ->
  allocate_loop (t1 ++ t2) userRank = allocate_loop t2 userRank.
Proof.
  induction t1 as [|x t1 IH]; intro H; cbn [app allocate_loop].
  - reflexivity.
  - rewrite in_interval_false by (apply H; now left).
    apply IH. intros d Hd. apply H. now right.
Qed.

Lemma allocate_loop_app_keep (t1 t2 : list CollegeData) (userRank : Z) :
  (exists d, In d t1 /\ contains d userRank) ->
  allocate_loop (t1 ++ t2) userRank = allocate_loop t1 userRank.
Proof.
  induction t1 as [|x t1 IH]; intros (d & Hin & Hd); [contradiction|].
  cbn [app allocate_loop].
  destruct (in_interval userRank x) eqn:E; [reflexivity|].
  apply IH. destruct Hin as [->|Hin]; [|now exists d].
  apply in_interval_spec in Hd. congruence.
Qed.

(** X9. Records appended to a table do not change the answer for a rank
    that a record of the table already contains; for any other rank the
    answer is the one of the appended records alone. *)
Theorem appended_records (t1 t2 : list CollegeData) (userRank : Z) :
  ((exists d, In d t1 /\ contains d userRank) ->
   allocateCollege (mkRankIntervalStrategy (t1 ++ t2)) userRank
   = allocateCollege (mkRankIntervalStrategy t1) userRank)
  /\ ((forall d, In d t1 -> ~ contains d userRank) ->
      allocateCollege (mkRankIntervalStrategy (t1 ++ t2)) userRank
      = allocateCollege (mkRankIntervalStrategy t2) userRank).
Proof.
  split.
  - apply allocate_loop_app_keep.
  - apply allocate_loop_app_skip.
Qed.

Lemma appended_records_witness :
  allocateCollege
    (mkRankIntervalStrategy (example_table ++ [mkCollegeData 150 400 "Late"]))
    150
  = allocateCollege (mkRankIntervalStrategy example_table) 150
  /\ allocateCollege
       (mkRankIntervalStrategy (example_table ++ [mkCollegeData 150 400 "Late"]))
       350
     = allocateCollege (mkRankIntervalStrategy [mkCollegeData 150 400 "Late"])
                       350.
Proof.
  split.
  - apply (proj1 (appended_records example_table
                    [mkCollegeData 150 400 "Late"] 150)).
    exists (mkCollegeData 100 200 "Tech U").
    split; [now left | unfold contains; simpl; lia].
  - apply (proj2 (appended_records example_table
                    [mkCollegeData 150 400 "Late"] 350)).
    intros d [<-|[<-|[]]]; unfold contains; simpl; lia.
Defined.

(** X10. A record whose start rank is above its end rank answers no
    rank at all: with such records taken out of the table, every rank
    gets the same answer as before. *)
Theorem empty_intervals_are_dead (table : list CollegeData) (userRank : Z) :
  (forall d, rankEnd d < rankStart d -> ~ contains d userRank)
  /\ allocateCollege (mkRankIntervalStrategy (proper_intervals table)) userRank
     = allocateCollege (mkRankIntervalStrategy table) userRank.
Proof.
  split; [unfold contains; intros d H; lia|].
  unfold allocateCollege, RankIntervalStrategy_allocateCollege.
  cbn [collegesData]. unfold proper_intervals.
  induction table as [|x table IH]; cbn [filter allocate_loop]; [reflexivity|].
  destruct (rankStart x <=? rankEnd x) eqn:E; cbn [allocate_loop].
  - now rewrite IH.
  - rewrite IH. apply Z.leb_gt in E.
    rewrite in_interval_false; [reflexivity|]. unfold contains. lia.
Qed.

End MoreAllocation.

(** ** More on the driver *)

Section MoreDriver.
Import CollegeCounseling ParserFacts.

(** X11. The name is the first line of the input that has something
    other than white space, without the white space in front of it and
    with the spaces inside it; the stream is left at the line after. *)
Theorem name_is_first_line (w name rest : string) :
  all_chars std.isspace w = true ->
  name <> "" ->
  starts_with std.isspace name = false ->
  count_char std.newline name = 0%nat ->
  getline (ws (cin (start (w ++ name ++ std.endl ++ rest)))) ""
  = (mkIstream rest false false, name).
Proof. intros. unfold start. cbn [cin]. now apply read_name. Qed.

Lemma name_is_first_line_witness :
  getline (ws (cin (start ((std.endl ++ "  ") ++ "Ann Lee" ++ std.endl ++ "150"))))
          ""
  = (mkIstream "150" false false, "Ann Lee").
Proof.
  apply name_is_first_line; reflexivity || discriminate.
Defined.

(** X12. A run with a data file that loads, a name on the first line
    of the input and, after it, a number that fits an [int]: [main]
    returns [0] with the two prompts, the three result lines for that
    number and the count [1] on the standard output, and nothing on the
    standard error. The name has no part in what is written. *)
Theorem run_allocates (fs : FileSystem)
    (w name rankText after pathText : string) (table : list CollegeData)
    (v : Z) :
  fs "data.txt" = Some pathText ->
  loadCollegesData fs (fst (std.read_line pathText)) = Ok table ->
  all_chars std.isspace w = true ->
  name <> "" ->
  starts_with std.isspace name = false ->
  count_char std.newline name = 0%nat ->
  std.read_integer (std.skip_space rankText) = Some (v, after) ->
  in_int_range v ->
  main fs (w ++ name ++ std.endl ++ rankText)
  = (0, mkProcess (mkIstream after (is_empty after) false)
                  (full_output "" table v 1) "" 1).
Proof.
  intros F1 L Hw Hne Hsp Hnl R V.
  assert (X : extract_int
                (fst (getline
                        (ws (cin (start (w ++ name ++ std.endl ++ rankText))))
                        "")) 0
              = (mkIstream after (is_empty after) false, v)).
  { unfold start. cbn [cin]. rewrite read_name by assumption.
    cbn [fst]. now apply extract_int_ok. }
  assert (F2 : fs (fst (std.read_line pathText)) <> None).
  { intro N. unfold loadCollegesData in L. rewrite N in L. discriminate. }
  unfold main.
  destruct (main_try_cases fs (start (w ++ name ++ std.endl ++ rankText)))
    as [N1 | pt N1 N2 | pt tx ins r E1 E2 X' Fb
        | pt tx ins r e E1 E2 X' Fb L' | pt tx ins r tb E1 E2 X' Fb L'];
    try congruence.
  - rewrite X in X'. injection X' as <- <-. discriminate.
  - rewrite F1 in E1. injection E1 as <-.
    rewrite L in L'. injection L' as <-.
    rewrite X in X'. injection X' as <- <-. reflexivity.
Qed.

Lemma run_allocates_witness :
  main example_fs ("Ann Lee" ++ std.endl ++ " 150 and so on")
  = (0, mkProcess (mkIstream " and so on" false false)
                  (full_output "" example_table 150 1) "" 1).
Proof.
  apply (run_allocates example_fs "" "Ann Lee" " 150 and so on" " and so on"
           "project.txt" example_table 150);
    try reflexivity; try discriminate.
  unfold in_int_range, std.INT_MIN, std.INT_MAX. lia.
Defined.

(** X13. Of the file system, a run reads the first line of "data.txt"
    and the file that this line names, and nothing else: two file systems
    that agree on these give the same run. *)
Theorem run_reads_two_files (fs1 fs2 : FileSystem) (stdin t1 t2 : string) :
  fs1 "data.txt" = Some t1 ->
  fs2 "data.txt" = Some t2 ->
  fst (std.read_line t1) = fst (std.read_line t2) ->
  fs1 (fst (std.read_line t1)) = fs2 (fst (std.read_line t1)) ->
  main fs1 stdin = main fs2 stdin.
Proof.
  intros D1 D2 P F.
  unfold main, main_try, main_try_from, bindM, open_or_throw,
    RankIntervalStrategy_new, loadCollegesData.
  rewrite D1, D2. cbn [ret raise]. rewrite <- P, <- F. reflexivity.
Qed.

Lemma run_reads_two_files_witness :
  main example_fs ("Ann Lee" ++ std.endl ++ "150")
  = main (fun path =>
            if String.eqb path "data.txt"
            then Some ("project.txt" ++ std.endl ++ "a second line")
            else if String.eqb path "other.txt" then Some "1-2:X"
            else example_fs path)
         ("Ann Lee" ++ std.endl ++ "150").
Proof.
  apply (run_reads_two_files _ _ _ "project.txt"
           ("project.txt" ++ std.endl ++ "a second line"));
    reflexivity.
Defined.






End MoreDriver.

(** ** The rank that is read *)

Section RankRead.

Lemma skip_space_all (w : string) :
  all_chars std.isspace w = true -> std.skip_space w = "".
Proof.
  intro H. rewrite <- (string_app_nil_r w). now rewrite skip_space_app.
Qed.

Lemma extract_prefix (b rest : string) (v n : Z) :
  integer_prefix b v rest ->
  extract_int (mkIstream b false false) n
  = if v <? std.INT_MIN
    then (mkIstream rest (is_empty rest) true, std.INT_MIN)
    else if std.INT_MAX <? v
    then (mkIstream rest (is_empty rest) true, std.INT_MAX)
    else (mkIstream rest (is_empty rest) false, v).
Proof.
  intro P. apply integer_prefix_read in P.
  unfold extract_int, good. cbn [rdbuf eofbit failbit negb andb].
  destruct (std.skip_space b) as [|c s]; [discriminate|].
  cbn [is_empty]. now rewrite P.
Qed.

Lemma extract_sign_only (w sg t : string) (n : Z) :
  all_chars std.isspace w = true ->
  sg = "+" \/ sg = "-" ->
  starts_with std.isdigit t = false ->
  extract_int (mkIstream (w ++ sg ++ t) false false) n
  = (mkIstream t (is_empty t) true, 0).
Proof.
  intros Hw Hsg Ht. unfold extract_int, good.
  cbn [rdbuf eofbit failbit negb andb].
  rewrite skip_space_app by exact Hw.
  assert (R : std.read_integer (sg ++ t) = None
              /\ snd (std.read_sign (sg ++ t)) = t
              /\ std.skip_space (sg ++ t) = sg ++ t).
  { destruct Hsg as [-> | ->]; cbn [append];
      (split; [|split; reflexivity]);
      unfold std.read_integer; cbn;
      (destruct t as [|c t]; [reflexivity|]);
      cbn [starts_with] in Ht; now rewrite Ht. }
  destruct R as (R1 & R2 & R3). rewrite R3.
  replace (is_empty (sg ++ t)) with false
    by (destruct Hsg as [-> | ->]; reflexivity).
  now rewrite R1, R2.
Qed.

Lemma extract_no_number (w t : string) (n : Z) :
  all_chars std.isspace w = true ->
  t <> "" ->
  starts_with std.isspace t = false ->
  starts_with begins_integer t = false ->
  extract_int (mkIstream (w ++ t) false false) n
  = (mkIstream t false true, 0).
Proof.
  intros Hw Hne Hsp Hnum. unfold extract_int, good.
  cbn [rdbuf eofbit failbit negb andb].
  rewrite skip_space_app by exact Hw. rewrite skip_space_id by exact Hsp.
  destruct t as [|c t]; [contradiction|]. cbn [is_empty].
  cbn [starts_with] in Hnum. unfold begins_integer in Hnum.
  apply orb_false_iff in Hnum. destruct Hnum as [Hnum Hplus].
  apply orb_false_iff in Hnum. destruct Hnum as [Hdig Hminus].
  unfold std.read_integer. cbn [std.read_sign].
  rewrite Hminus, Hplus. cbn [snd is_empty]. now rewrite Hdig.
Qed.

Lemma extract_success (b : string) (n : Z) :
  failbit (fst (extract_int (mkIstream b false false) n)) = false ->
  exists v rest,
    integer_prefix b v rest /\ in_int_range v
    /\ extract_int (mkIstream b false false) n
       = (mkIstream rest (is_empty rest) false, v).
Proof.
  unfold extract_int, good. cbn [rdbuf eofbit failbit negb andb].
  destruct (is_empty (std.skip_space b)); cbn [fst failbit]; [discriminate|].
  destruct (std.read_integer (std.skip_space b)) as [[v rest]|] eqn:R;
    cbn [fst failbit]; [|discriminate].
  destruct (v <? std.INT_MIN) eqn:Lo; cbn [fst failbit]; [discriminate|].
  destruct (std.INT_MAX <? v) eqn:Hi; cbn [fst failbit]; [discriminate|].
  intros _. apply Z.ltb_ge in Lo. apply Z.ltb_ge in Hi.
  exists v, rest. split; [now apply integer_prefix_read|].
  split; [split; assumption | reflexivity].
Qed.

(** X15. [std::cin >> userRank] on a good stream, from what the input
    holds. An input that begins, white space apart, with an integer: the
    integer is stored and the stream is left just behind its digits when
    it fits an [int]; otherwise the extraction fails and the nearest
    bound of [int] is stored. A sign with no digit behind it: the sign is
    taken from the stream, the extraction fails and [0] is stored. Any
    other text: nothing is taken, the extraction fails and [0] is stored.
    White space only: the extraction fails at the end of the input and
    the variable keeps what it held. The extraction succeeds in the first
    case only. *)
Theorem extracted_rank (n : Z) :
  (forall b v rest,
      integer_prefix b v rest ->
      extract_int (mkIstream b false false) n
      = if v <? std.INT_MIN
        then (mkIstream rest (is_empty rest) true, std.INT_MIN)
        else if std.INT_MAX <? v
        then (mkIstream rest (is_empty rest) true, std.INT_MAX)
        else (mkIstream rest (is_empty rest) false, v))
  /\ (forall w sg t,
        all_chars std.isspace w = true ->
        sg = "+" \/ sg = "-" ->
        starts_with std.isdigit t = false ->
        extract_int (mkIstream (w ++ sg ++ t) false false) n
        = (mkIstream t (is_empty t) true, 0))
  /\ (forall w t,
        all_chars std.isspace w = true ->
        t <> "" ->
        starts_with std.isspace t = false ->
        starts_with begins_integer t = false ->
        extract_int (mkIstream (w ++ t) false false) n
        = (mkIstream t false true, 0))
  /\ (forall w,
        all_chars std.isspace w = true ->
        extract_int (mkIstream w false false) n = (mkIstream "" true true, n))
  /\ (forall b,
        failbit (fst (extract_int (mkIstream b false false) n)) = false ->
        exists v rest,
          integer_prefix b v rest /\ in_int_range v
          /\ extract_int (mkIstream b false false) n
             = (mkIstream rest (is_empty rest) false, v)).
Proof.
  split; [intros b v rest; apply extract_prefix|].
  split; [intros w sg t; apply extract_sign_only|].
  split; [intros w t; apply extract_no_number|].
  split; [|intro b; apply extract_success].
  intros w Hw. unfold extract_int, good.
  cbn [rdbuf eofbit failbit negb andb].
  now rewrite skip_space_all.
Qed.

Lemma extracted_rank_witness :
  extract_int (mkIstream " -99999999999 x" false false) 7
  = (mkIstream " x" false true, std.INT_MIN)
  /\ extract_int (mkIstream " -abc" false false) 7
     = (mkIstream "abc" false true, 0)
  /\ extract_int (mkIstream "  " false false) 7 = (mkIstream "" true true, 7).
Proof.
  destruct (extracted_rank 7) as (H1 & H2 & _ & H4 & _).
  split; [|split].
  - apply (H1 " -99999999999 x" (-99999999999) " x").
    exists " ", "-", "99999999999". repeat split; try discriminate.
    unfold is_sign. auto.
  - apply (H2 " " "-" "abc"); [reflexivity | now right | reflexivity].
  - apply (H4 "  "). reflexivity.
Defined.

End RankRead.
